(** * Bio.SeqIO.QualityIO: FASTQ tokenizer, quality codec, readers, writers

    A shallow embedding of [Bio/SeqIO/QualityIO.py].  Python byte strings
    are [String.string] (8-bit [ascii] characters), Python numbers used as
    quality scores are [Q] (exact rationals) for the writers and [R] for the
    logarithmic PHRED/Solexa conversions, and [None] is [option].  Each float
    operation rounds its exact result to the nearest double ([fl] on [Q],
    [round64] on [R]).  The
    generators are modelled by the finite list of what they yield, followed
    by the exception (if any) that ends the iteration. *)

From Stdlib Require Import String Ascii List ZArith QArith Lia Bool.
From Stdlib Require Import DecimalString Qround Reals Lra.
From Stdlib Require DecimalPos.
Import ListNotations.

Open Scope Z_scope.
Open Scope string_scope.

(** ** Python string primitives *)

(** [str.isspace] on one byte, as used by [strip], [rstrip] and [split]. *)
Definition is_ws (c : ascii) : bool :=
  existsb (Nat.eqb (nat_of_ascii c)) [32; 9; 10; 11; 12; 13]%nat.

(** [s.rstrip()]: drop trailing whitespace. *)
Fixpoint rstrip (s : string) : string :=
  match s with
  | EmptyString => EmptyString
  | String c r =>
      let r' := rstrip r in
      if is_ws c && String.eqb r' EmptyString then EmptyString else String c r'
  end.

(** [s.lstrip()]: drop leading whitespace. *)
Fixpoint lstrip (s : string) : string :=
  match s with
  | EmptyString => EmptyString
  | String c r => if is_ws c then lstrip r else s
  end.

(** [s.strip()]. *)
Definition strip (s : string) : string := lstrip (rstrip s).

(** [line[0] == c] for a non-empty line (a line returned by [readline] before
    the end of file always holds at least one character). *)
Definition starts_with (c : ascii) (line : string) : bool :=
  match line with
  | String c' _ => Ascii.eqb c' c
  | EmptyString => false
  end.

(** [line[1:]]. *)
Definition tail1 (line : string) : string :=
  match line with
  | String _ r => r
  | EmptyString => EmptyString
  end.

(** ["%i" % n] *)
Definition str_of_nat (n : nat) : string :=
  NilZero.string_of_uint (Nat.to_uint n).

Definition str_of_Z (z : Z) : string :=
  NilZero.string_of_int (Z.to_int z).

(** Python exceptions raised by the module. *)
Inductive py_error :=
| ValueError (msg : string)
| TypeError (msg : string)
| IndexError
| KeyError (key : string)
| OverflowError (msg : string).

(** ** FastqGeneralIterator

    The generator reads the handle line by line.  Its control points between
    two [readline] calls are the states below; [fastq_step] is what the code
    does with the next line, [fastq_eof] what it does when [readline] returns
    [""] in that state. *)

Module Fastq.

Definition raw_record : Type := (string * string * string)%type.

Inductive state :=
| Skip                                        (* before the first '@' line *)
| AfterTitle (title : string)                 (* next line is the first sequence line *)
| InSeq (title seq : string)                  (* sequence lines, until a '+' line *)
| AfterPlus (title seq : string)              (* next line is the first quality line *)
| InQual (title seq qual : string).           (* further quality lines *)

Inductive outcome :=
| Continue (st : state)
| Emit (r : raw_record) (st : state)
| Fail (e : py_error).

Definition eof_msg : string := "End of file without quality information.".
Definition caption_msg : string := "Sequence and quality captions differ.".

(** ["Lengths of sequence and quality values differs  for %s (%i and %i)."] *)
Definition length_msg (title : string) (seq_len qual_len : nat) : string :=
  "Lengths of sequence and quality values differs  for " ++ title ++ " ("
  ++ str_of_nat seq_len ++ " and " ++ str_of_nat qual_len ++ ").".

(** The check after the quality block: raise or yield. *)
Definition close (title seq qual : string) : py_error + raw_record :=
  if Nat.eqb (String.length seq) (String.length qual)
  then inr (title, seq, qual)
  else inl (ValueError (length_msg title (String.length seq) (String.length qual))).

Definition fastq_step (st : state) (line : string) : outcome :=
  match st with
  | Skip =>
      if starts_with "@" line
      then Continue (AfterTitle (rstrip (tail1 line)))
      else Continue Skip
  | AfterTitle title => Continue (InSeq title (rstrip line))
  | InSeq title seq =>
      if starts_with "+" line then
        let second_title := rstrip (tail1 line) in
        if negb (String.eqb second_title "") && negb (String.eqb second_title title)
        then Fail (ValueError caption_msg)
        else Continue (AfterPlus title seq)
      else Continue (InSeq title (seq ++ rstrip line))
  | AfterPlus title seq => Continue (InQual title seq (strip line))
  | InQual title seq qual =>
      if starts_with "@" line && Nat.leb (String.length seq) (String.length qual)
      then match close title seq qual with
           | inr r => Emit r (AfterTitle (rstrip (tail1 line)))
           | inl e => Fail e
           end
      else Continue (InQual title seq (qual ++ rstrip line))
  end.

Definition fastq_eof (st : state) : list raw_record * option py_error :=
  match st with
  | Skip => ([], None)
  | AfterTitle _ | InSeq _ _ => ([], Some (ValueError eof_msg))
  | AfterPlus title seq =>
      match close title seq "" with
      | inr r => ([r], None)
      | inl e => ([], Some e)
      end
  | InQual title seq qual =>
      match close title seq qual with
      | inr r => ([r], None)
      | inl e => ([], Some e)
      end
  end.

Fixpoint run (st : state) (lines : list string) : list raw_record * option py_error :=
  match lines with
  | [] => fastq_eof st
  | line :: rest =>
      match fastq_step st line with
      | Continue st' => run st' rest
      | Emit r st' => let (rs, e) := run st' rest in (r :: rs, e)
      | Fail e => ([], Some e)
      end
  end.

(** [FastqGeneralIterator(handle)], the handle given as its lines (each with
    its line terminator, as [readline] returns them). *)
Definition FastqGeneralIterator (lines : list string) : list raw_record * option py_error :=
  run Skip lines.

End Fastq.

(** ** Text and lines *)

Definition nl : string := String (ascii_of_nat 10) EmptyString.

(** What successive [readline] calls return on a text: every line keeps its
    terminator, the last one may lack it. *)
Fixpoint readlines (s : string) : list string :=
  match s with
  | EmptyString => []
  | String c r =>
      if Ascii.eqb c (ascii_of_nat 10) then String c EmptyString :: readlines r
      else match readlines r with
           | [] => [String c EmptyString]
           | l :: ls => String c l :: ls
           end
  end.

(** Lines joined with a terminator after each one. *)
Definition unlines (ls : list string) : string :=
  fold_right (fun l acc => l ++ nl ++ acc) EmptyString ls.

(** ** SeqRecord and title parsing *)

(** [str.split()] with no argument: words separated by runs of whitespace. *)
Fixpoint split_aux (cur : string) (s : string) : list string :=
  match s with
  | EmptyString => if String.eqb cur EmptyString then [] else [cur]
  | String c r =>
      if is_ws c then
        if String.eqb cur EmptyString then split_aux EmptyString r
        else cur :: split_aux EmptyString r
      else split_aux (cur ++ String c EmptyString) r
  end.

Definition py_split (s : string) : list string := split_aux EmptyString s.

(** A Python number or [None], as stored in a per-letter annotation. *)
Definition pyscore : Type := option Q.

(** The fields of [SeqRecord] this module reads and writes;
    [letter_annotations] is the per-letter dict as an association list. *)
Record SeqRecord := mkSeqRecord {
  seq : string;
  id : string;
  name : string;
  description : string;
  letter_annotations : list (string * list pyscore)
}.

Fixpoint dict_get {V} (k : string) (d : list (string * V)) : option V :=
  match d with
  | [] => None
  | (k', v) :: d' => if String.eqb k k' then Some v else dict_get k d'
  end.

(** A caller's [title2ids] function, or [None]. *)
Definition title2ids_t : Type := option (string -> string * string * string).

(** [id, name, descr = title2ids(title_line)] or, without [title2ids],
    [descr = title_line; id = descr.split()[0]; name = id]. *)
Definition title_fields (title2ids : title2ids_t) (title_line : string)
  : py_error + (string * string * string) :=
  match title2ids with
  | Some f => inr (f title_line)
  | None =>
      match py_split title_line with
      | [] => inl IndexError
      | w :: _ => inr (w, w, title_line)
      end
  end.

(** Tuple unpacking of a string into three names: [id, name, descr = title_line]. *)
Definition unpack3 (s : string) : py_error + (string * string * string) :=
  match s with
  | String a (String b (String c EmptyString)) =>
      inr (String a EmptyString, String b EmptyString, String c EmptyString)
  | String _ (String _ (String _ (String _ _))) => inl (ValueError "too many values to unpack")
  | _ => inl (ValueError ("need more than " ++ str_of_nat (String.length s) ++ " values to unpack"))
  end.

(** The title handling of [FastqSolexaIterator]: with [title2ids] given it
    runs [id, name, descr = title_line]. *)
Definition solexa_title_fields (title2ids : title2ids_t) (title_line : string)
  : py_error + (string * string * string) :=
  match title2ids with
  | Some _ => unpack3 title_line
  | None =>
      match py_split title_line with
      | [] => inl IndexError
      | w :: _ => inr (w, w, title_line)
      end
  end.

(** ** Dialect readers *)

Module Readers.
Import Fastq.

Definition SANGER_SCORE_OFFSET : Z := 33.
Definition SOLEXA_SCORE_OFFSET : Z := 64.

(** [[ord(letter) - offset for letter in quality_string]] *)
Definition decode (offset : Z) (quality_string : string) : list Z :=
  map (fun c => Z.of_nat (nat_of_ascii c) - offset) (list_ascii_of_string quality_string).

Definition py_min (x : Z) (xs : list Z) : Z := fold_left Z.min xs x.
Definition py_max (x : Z) (xs : list Z) : Z := fold_left Z.max xs x.

(** [qualities and (min(qualities) < 0 or max(qualities) > 93)] *)
Definition phred_out_of_range (qualities : list Z) : bool :=
  match qualities with
  | [] => false
  | x :: xs => Z.ltb (py_min x xs) 0 || Z.ltb 93 (py_max x xs)
  end.

Definition to_scores (qualities : list Z) : list pyscore :=
  map (fun v => Some (inject_Z v)) qualities.

Definition phred_msg : string :=
  "PHRED quality score outside 0 to 93 found - "
  ++ "your file is probably not in the standard "
  ++ "Sanger FASTQ format. Check if it is one of the"
  ++ "Solexa/Illumina variants instead.".

Definition illumina_msg : string :=
  "PHRED quality score outside 0 to 93 found - "
  ++ "your file is probably not in the Illumina 1.3+ "
  ++ "FASTQ format. Check if it is a standard Sanger "
  ++ "FASTQ file or from an older Solexa/Illumina "
  ++ "pipeline.".

Definition solexa_msg (m : Z) : string :=
  "Solexa quality score of " ++ str_of_Z m ++ " found, less than -5. "
  ++ "Your file is probably not in the original Solexa "
  ++ "(or early Illumina) format. Check if it is a "
  ++ "standard Sanger FASTQ file.".

Definition make_record (fields : string * string * string) (seq_string : string)
  (key : string) (qualities : list Z) : SeqRecord :=
  let '(i, n, d) := fields in
  {| seq := seq_string; id := i; name := n; description := d;
     letter_annotations := [(key, to_scores qualities)] |}.

(** The body of the [for] loop of [FastqPhredIterator]. *)
Definition phred_record (title2ids : title2ids_t) (r : raw_record) : py_error + SeqRecord :=
  let '(title_line, seq_string, quality_string) := r in
  match title_fields title2ids title_line with
  | inl e => inl e
  | inr fields =>
      let qualities := decode SANGER_SCORE_OFFSET quality_string in
      if phred_out_of_range qualities then inl (ValueError phred_msg)
      else inr (make_record fields seq_string "phred_quality" qualities)
  end.

(** The body of the [for] loop of [FastqSolexaIterator]. *)
Definition solexa_record (title2ids : title2ids_t) (r : raw_record) : py_error + SeqRecord :=
  let '(title_line, seq_string, quality_string) := r in
  match solexa_title_fields title2ids title_line with
  | inl e => inl e
  | inr fields =>
      let qualities := decode SOLEXA_SCORE_OFFSET quality_string in
      match qualities with
      | x :: xs =>
          if Z.ltb (py_min x xs) (-5) then inl (ValueError (solexa_msg (py_min x xs)))
          else inr (make_record fields seq_string "solexa_quality" qualities)
      | [] => inr (make_record fields seq_string "solexa_quality" qualities)
      end
  end.

(** The body of the [for] loop of [FastqIlluminaIterator]. *)
Definition illumina_record (title2ids : title2ids_t) (r : raw_record) : py_error + SeqRecord :=
  let '(title_line, seq_string, quality_string) := r in
  match title_fields title2ids title_line with
  | inl e => inl e
  | inr fields =>
      let qualities := decode SOLEXA_SCORE_OFFSET quality_string in
      if phred_out_of_range qualities then inl (ValueError illumina_msg)
      else inr (make_record fields seq_string "phred_quality" qualities)
  end.

(** [for ... in FastqGeneralIterator(handle): ... yield record]: the records
    are converted one at a time, the first failure ends the generator, and an
    exception of the tokenizer comes after all the triples it yielded. *)
Fixpoint each (f : raw_record -> py_error + SeqRecord) (rs : list raw_record)
  (tail_err : option py_error) : list SeqRecord * option py_error :=
  match rs with
  | [] => ([], tail_err)
  | r :: rs' =>
      match f r with
      | inl e => ([], Some e)
      | inr rec => let (out, e) := each f rs' tail_err in (rec :: out, e)
      end
  end.

Definition over_tokens (f : raw_record -> py_error + SeqRecord) (lines : list string)
  : list SeqRecord * option py_error :=
  let (rs, e) := FastqGeneralIterator lines in each f rs e.

Definition FastqPhredIterator (title2ids : title2ids_t) (lines : list string) :=
  over_tokens (phred_record title2ids) lines.
Definition FastqSolexaIterator (title2ids : title2ids_t) (lines : list string) :=
  over_tokens (solexa_record title2ids) lines.
Definition FastqIlluminaIterator (title2ids : title2ids_t) (lines : list string) :=
  over_tokens (illumina_record title2ids) lines.

End Readers.

(** ** Writers *)

Module Writers.
Import Readers.

(** [n / d] rounded to the nearest integer, ties to even ([d > 0]). *)
Definition Z_round_even (n d : Z) : Z :=
  let q := n / d in
  match Z.compare (2 * (n mod d)) d with
  | Lt => q
  | Gt => q + 1
  | Eq => if Z.even q then q else q + 1
  end.

(** [x] rounded to the nearest double, ties to even: a 53-bit significand,
    exponents down to the subnormal [2^-1074] (no upper limit; the writers
    only add a score and an offset).  With [2^k <= |x| < 2^(k+1)], the
    quantum is [2^e], [e = max (k - 52) (-1074)]. *)
Definition fl (x : Q) : Q :=
  let a := Z.abs (Qnum x) in
  let d := Zpos (Qden x) in
  if Z.eqb a 0 then 0%Q else
  let k0 := Z.log2 a - Z.log2 d in
  let k := if Z.ltb (a * 2 ^ Z.max (- k0) 0) (d * 2 ^ Z.max k0 0) then k0 - 1 else k0 in
  let e := Z.max (k - 52) (-1074) in
  let m := Z_round_even (a * 2 ^ Z.max (- e) 0) (d * 2 ^ Z.max e 0) in
  let v := (m * 2 ^ Z.max e 0) # Z.to_pos (2 ^ Z.max (- e) 0) in
  if Z.ltb (Qnum x) 0 then (- v)%Q else v.

(** Python 2 [round(x, 0)] of a double: to the nearest integer, halves away
    from zero; [int(...)] of the result is exact. *)
Definition py_round (x : Q) : Z :=
  if Qle_bool 0 x then Qfloor (x + (1 # 2)) else - Qfloor (- x + (1 # 2)).

(** [chr(n)] *)
Definition py_chr (n : Z) : py_error + ascii :=
  if Z.leb 0 n && Z.ltb n 256 then inr (ascii_of_nat (Z.to_nat n))
  else inl (ValueError "chr() arg not in range(256)").

(** [[chr(int(round(q+offset,0))) for q in qualities]], evaluated left to
    right: [q+offset] is a float sum (for an int score, the int sum made a
    float by [round]); [None + offset] raises a [TypeError]. *)
Fixpoint encode_each (offset : Z) (qualities : list pyscore) : py_error + string :=
  match qualities with
  | [] => inr EmptyString
  | None :: _ => inl (TypeError "unsupported operand type(s) for +")
  | Some q :: rest =>
      match py_chr (py_round (fl (q + inject_Z offset))) with
      | inl e => inl e
      | inr c =>
          match encode_each offset rest with
          | inl e => inl e
          | inr s => inr (String c s)
          end
      end
  end.

Definition none_in (qualities : list pyscore) : bool :=
  existsb (fun q => match q with None => true | Some _ => false end) qualities.

(** The [try: qualities_str = "".join(...) except TypeError] block. *)
Definition encode_qualities (offset : Z) (qualities : list pyscore) : py_error + string :=
  match encode_each offset qualities with
  | inl (TypeError m) =>
      if none_in qualities then inl (TypeError "A quality value of None was found")
      else inl (TypeError m)
  | r => r
  end.

(** The title line of the three FASTQ writers, from the cleaned id and
    description; [description.split(None,1)[0]] is the first word of the
    description, an [IndexError] when it is only whitespace. *)
Definition fastq_title (i description : string) : py_error + string :=
  if String.eqb description EmptyString then inr i
  else match py_split description with
       | [] => inl IndexError
       | w :: _ => if String.eqb w i then inr description
                   else inr (i ++ " " ++ description)
       end.

(** ["@%s\n%s\n+\n%s\n" % (title, record.seq, qualities_str)] *)
Definition fastq_text (title seq_string qualities_str : string) : string :=
  "@" ++ title ++ nl ++ seq_string ++ nl ++ "+" ++ nl ++ qualities_str ++ nl.

Definition unknown_scores_msg (i : string) : string :=
  "No suitable quality scores found in letter_annotations of SeqRecord (id="
  ++ i ++ ").".

Definition record_length_msg (i : string) (n m : nat) : string :=
  "Record " ++ i ++ " has sequence length " ++ str_of_nat n ++ " but "
  ++ str_of_nat m ++ " quality scores".

Section Writer.

(** [SequentialSequenceWriter.clean] (Bio/SeqIO/Interfaces.py, outside this
    file) and the two score conversions applied elementwise by
    [_get_phred_quality] / [_get_solexa_quality]: [phred_quality_from_solexa]
    and [solexa_quality_from_phred] evaluated in floating point (their real
    valued definitions are in module [Convert]). *)
Variable clean : string -> string.
Variable phred_of_solexa : pyscore -> pyscore.
Variable solexa_of_phred : pyscore -> pyscore.

Definition _get_phred_quality (record : SeqRecord) : py_error + list pyscore :=
  match dict_get "phred_quality" (letter_annotations record) with
  | Some qs => inr qs
  | None =>
      match dict_get "solexa_quality" (letter_annotations record) with
      | Some qs => inr (map phred_of_solexa qs)
      | None => inl (ValueError (unknown_scores_msg (id record)))
      end
  end.

Definition _get_solexa_quality (record : SeqRecord) : py_error + list pyscore :=
  match dict_get "solexa_quality" (letter_annotations record) with
  | Some qs => inr qs
  | None =>
      match dict_get "phred_quality" (letter_annotations record) with
      | Some qs => inr (map solexa_of_phred qs)
      | None => inl (ValueError (unknown_scores_msg (id record)))
      end
  end.

(** The common tail of [write_record]: title line and output text. *)
Definition write_tail (record : SeqRecord) (qualities_str : string) : py_error + string :=
  match fastq_title (clean (id record)) (clean (description record)) with
  | inl e => inl e
  | inr title => inr (fastq_text title (seq record) qualities_str)
  end.

(** [FastqPhredWriter.write_record]: the text written to the handle. *)
Definition FastqPhredWriter_write_record (record : SeqRecord) : py_error + string :=
  match _get_phred_quality record with
  | inl e => inl e
  | inr qualities =>
      match encode_qualities SANGER_SCORE_OFFSET qualities with
      | inl e => inl e
      | inr qualities_str =>
          if negb (Nat.eqb (String.length qualities_str) (String.length (seq record)))
          then inl (ValueError (record_length_msg (id record) (String.length (seq record))
                                           (String.length qualities_str)))
          else write_tail record qualities_str
      end
  end.

(** [FastqSolexaWriter.write_record]. *)
Definition FastqSolexaWriter_write_record (record : SeqRecord) : py_error + string :=
  match _get_solexa_quality record with
  | inl e => inl e
  | inr qualities =>
      match encode_qualities SOLEXA_SCORE_OFFSET qualities with
      | inl e => inl e
      | inr qualities_str =>
          if negb (Nat.eqb (length qualities) (String.length (seq record)))
          then inl (ValueError (record_length_msg (id record) (String.length (seq record))
                                           (length qualities)))
          else write_tail record qualities_str
      end
  end.

(** [FastqIlluminaWriter.write_record]. *)
Definition FastqIlluminaWriter_write_record (record : SeqRecord) : py_error + string :=
  match _get_phred_quality record with
  | inl e => inl e
  | inr qualities =>
      match encode_qualities SOLEXA_SCORE_OFFSET qualities with
      | inl e => inl e
      | inr qualities_str =>
          if negb (Nat.eqb (length qualities) (String.length (seq record)))
          then inl (ValueError (record_length_msg (id record) (String.length (seq record))
                                           (length qualities)))
          else write_tail record qualities_str
      end
  end.

End Writer.

End Writers.

(** ** PairedFastaQualIterator *)

Module Paired.

Fixpoint dict_set {V} (k : string) (v : V) (d : list (string * V)) : list (string * V) :=
  match d with
  | [] => [(k, v)]
  | (k', v') :: d' => if String.eqb k k' then (k, v) :: d' else (k', v') :: dict_set k v d'
  end.

Definition fasta_more_msg : string := "FASTA file has more entries than the QUAL file.".
Definition qual_more_msg : string := "QUAL file has more entries than the FASTA file.".

Definition mismatch_msg (fid qid : string) : string :=
  "FASTA and QUAL entries do not match (" ++ fid ++ " vs " ++ qid ++ ").".

Definition disagree_msg (fid : string) : string :=
  "Sequence length and number of quality scores disagree for " ++ fid.

(** The [while True] loop over the records of [FastaIterator] (left) and of
    [QualPhredIterator] (right), given as the records each generator yields;
    [next()] is called on the FASTA iterator first, then on the QUAL one. *)
Fixpoint PairedFastaQualIterator (fasta_recs qual_recs : list SeqRecord)
  : list SeqRecord * option py_error :=
  match fasta_recs, qual_recs with
  | [], [] => ([], None)
  | [], _ :: _ => ([], Some (ValueError fasta_more_msg))
  | _ :: _, [] => ([], Some (ValueError qual_more_msg))
  | f_rec :: fs, q_rec :: qs =>
      if negb (String.eqb (id f_rec) (id q_rec))
      then ([], Some (ValueError (mismatch_msg (id f_rec) (id q_rec))))
      else
        match dict_get "phred_quality" (letter_annotations q_rec) with
        | None => ([], Some (KeyError "phred_quality"))
        | Some quals =>
            if negb (Nat.eqb (String.length (seq f_rec)) (length quals))
            then ([], Some (ValueError (disagree_msg (id f_rec))))
            else
              let merged :=
                {| seq := seq f_rec; id := id f_rec; name := name f_rec;
                   description := description f_rec;
                   letter_annotations :=
                     dict_set "phred_quality" quals (letter_annotations f_rec) |} in
              let (out, e) := PairedFastaQualIterator fs qs in (merged :: out, e)
        end
  end.

End Paired.

(** ** PHRED and Solexa score conversions

    The two conversion functions compute with Python floats.  A float is a
    real number here, and every float operation is its exact result rounded
    to the nearest double ([round64]).  C's [pow] and [log] are taken as
    correctly rounded. *)

Module Convert.
Local Open Scope R_scope.

(** The binary exponent of [x > 0]: [2 ^ flog2 x <= x < 2 ^ (flog2 x + 1)]. *)
Definition flog2 (x : R) : Z := Int_part (ln x / ln 2).

(** [s] rounded to the nearest integer, ties to even. *)
Definition round_even_R (s : R) : Z :=
  let f := Int_part s in
  if Rlt_dec (s - IZR f) (/ 2) then f
  else if Rlt_dec (/ 2) (s - IZR f) then (f + 1)%Z
  else if Z.even f then f else (f + 1)%Z.

(** [x] rounded to the nearest double, ties to even: a 53-bit significand
    with quantum [2^e], [e = max (flog2 |x| - 52) (-1074)] (subnormals
    included).  Values past the largest double are handled by [py_pow10]. *)
Definition round64 (x : R) : R :=
  if Req_dec_T x 0 then 0 else
  let e := Z.max (flog2 (Rabs x) - 52) (-1074) in
  let m := round_even_R (Rabs x / powerRZ 2 e) in
  if Rlt_dec x 0 then - (IZR m * powerRZ 2 e) else IZR m * powerRZ 2 e.

(** The reals that round to infinity: from halfway between the largest
    double [(2^53 - 1) * 2^971] and [2^1024] up. *)
Definition overflow_bound : R := IZR ((2 ^ 54 - 1) * 2 ^ 970).

Definition overflow_msg : string := "(34, 'Numerical result out of range')".

(** [10 ** y] for a float [y] ([float_pow] on [10.0]): C's [pow] sets
    [errno] to ERANGE when the result overflows and Python raises
    [OverflowError]; an underflow gives a subnormal or 0.0 without error. *)
Definition py_pow10 (y : R) : py_error + R :=
  if Rle_dec overflow_bound (Rpower 10 y) then inl (OverflowError overflow_msg)
  else inr (round64 (Rpower 10 y)).

(** [log(y, 10)]: [log(y) / log(10.0)], both logarithms and the division
    rounded; [log] of [y <= 0] raises [ValueError("math domain error")]. *)
Definition py_log10 (y : R) : py_error + R :=
  if Rle_dec y 0 then inl (ValueError "math domain error")
  else inr (round64 (round64 (ln y) / round64 (ln 10))).

(** [solexa_quality_from_phred]: [phred_quality > 0], then [== 0], then
    [is None] (in Python 2, [None > 0] and [None == 0] are both false).  For
    a positive score it evaluates
    [max(-5.0, 10*log(10**(phred_quality/10.0) - 1, 10))]. *)
Definition solexa_quality_from_phred (phred_quality : option R) : py_error + option R :=
  match phred_quality with
  | None => inr None
  | Some p =>
      if Rlt_dec 0 p then
        match py_pow10 (round64 (p / 10)) with
        | inl e => inl e
        | inr t =>
            match py_log10 (round64 (t - 1)) with
            | inl e => inl e
            | inr l => inr (Some (Rmax (-5) (round64 (10 * l))))
            end
        end
      else if Req_dec_T p 0 then inr (Some (-5))
      else inl (ValueError "PHRED qualities must be positive (or zero)")
  end.

Definition solexa_warning : string := "Solexa quality less than -5 passed".

(** [phred_quality_from_solexa]: the warnings it issues, then its result,
    [10*log(10**(solexa_quality/10.0) + 1, 10)]. *)
Definition phred_quality_from_solexa (solexa_quality : option R)
  : list string * (py_error + option R) :=
  match solexa_quality with
  | None => ([], inr None)
  | Some s =>
      let warnings := if Rlt_dec s (-5) then [solexa_warning] else [] in
      match py_pow10 (round64 (s / 10)) with
      | inl e => (warnings, inl e)
      | inr t =>
          match py_log10 (round64 (t + 1)) with
          | inl e => (warnings, inl e)
          | inr l => (warnings, inr (Some (round64 (10 * l))))
          end
      end
  end.

End Convert.

(** ** QUAL files: QualPhredIterator and QualPhredWriter *)

Module Qual.
Import Fastq Readers Writers.

(** The value of a decimal digit. *)
Definition digit_value (c : ascii) : option Z :=
  let n := nat_of_ascii c in
  if Nat.leb 48 n && Nat.leb n 57 then Some (Z.of_nat n - 48) else None.

Fixpoint digits_value (acc : Z) (s : string) : option Z :=
  match s with
  | EmptyString => Some acc
  | String c r =>
      match digit_value c with
      | Some d => digits_value (10 * acc + d) r
      | None => None
      end
  end.

(** [int(word)] for a word of [line.split()] (no whitespace in it): an
    optional sign, then one or more decimal digits. *)
Definition py_int (word : string) : py_error + Z :=
  let err := inl (ValueError ("invalid literal for int() with base 10: '" ++ word ++ "'")) in
  let '(sign, digits) :=
    match word with
    | String c r =>
        if Ascii.eqb c "-" then (-1, r)
        else if Ascii.eqb c "+" then (1, r) else (1, word)
    | EmptyString => (1, word)
    end in
  match digits with
  | EmptyString => err
  | String _ _ =>
      match digits_value 0 digits with
      | Some v => inr (sign * v)
      | None => err
      end
  end.

(** [[int(word) for word in line.split()]], left to right. *)
Fixpoint py_ints (words : list string) : py_error + list Z :=
  match words with
  | [] => inr []
  | w :: ws =>
      match py_int w with
      | inl e => inl e
      | inr z =>
          match py_ints ws with
          | inl e => inl e
          | inr zs => inr (z :: zs)
          end
      end
  end.

Definition range_msg (i : string) (lo hi : Z) : string :=
  "Quality score range for " ++ i ++ " is " ++ str_of_Z lo ++ " to " ++ str_of_Z hi
  ++ ", outside the expected 0 to 93.  Perhaps "
  ++ "these are Solexa/Illumina scores, and not "
  ++ "PHRED scores?".

(** [str(UnknownSeq(n, alphabet))]: [n] copies of the alphabet's letter. *)
Fixpoint unknown_seq (letter : ascii) (n : nat) : string :=
  match n with
  | O => EmptyString
  | S n' => String letter (unknown_seq letter n')
  end.

(** The control points of the generator between two [readline] calls: before
    the first '>' line, and inside a record whose title has been parsed. *)
Inductive qstate :=
| QSkip
| QRecord (fields : string * string * string) (qualities : list Z).

Section Reader.

(** The letter [UnknownSeq] uses for the [alphabet] argument ("?" for the
    default [single_letter_alphabet]) and the [title2ids] argument. *)
Variable letter : ascii.
Variable title2ids : title2ids_t.

(** A '>' line: [id, name, descr] from the title, qualities start empty. *)
Definition qual_title (line : string) : py_error + qstate :=
  match title_fields title2ids (rstrip (tail1 line)) with
  | inl e => inl e
  | inr fields => inr (QRecord fields [])
  end.

(** The range check and the record yielded at the end of a quality block. *)
Definition qual_close (fields : string * string * string) (qualities : list Z)
  : py_error + SeqRecord :=
  let '(i, n, d) := fields in
  let record := {| seq := unknown_seq letter (length qualities); id := i; name := n;
                   description := d;
                   letter_annotations := [("phred_quality", to_scores qualities)] |} in
  match qualities with
  | x :: xs =>
      if Z.ltb (py_min x xs) 0 || Z.ltb 93 (py_max x xs)
      then inl (ValueError (range_msg i (py_min x xs) (py_max x xs)))
      else inr record
  | [] => inr record
  end.

(** One line read by [handle.readline()]: the records yielded, then either
    the exception raised or the next control point.  A '>' line ending a
    record is range-checked and yielded before its own title is parsed. *)
Definition qual_step (st : qstate) (line : string)
  : list SeqRecord * (py_error + qstate) :=
  match st with
  | QSkip => if starts_with ">" line then ([], qual_title line) else ([], inr QSkip)
  | QRecord fields qualities =>
      if starts_with ">" line then
        match qual_close fields qualities with
        | inl e => ([], inl e)
        | inr r => ([r], qual_title line)
        end
      else
        match py_ints (py_split line) with
        | inl e => ([], inl e)
        | inr zs => ([], inr (QRecord fields (qualities ++ zs)))
        end
  end.

(** [readline] returned [""]: nothing before the first record, or the last
    record is closed. *)
Definition qual_eof (st : qstate) : list SeqRecord * option py_error :=
  match st with
  | QSkip => ([], None)
  | QRecord fields qualities =>
      match qual_close fields qualities with
      | inl e => ([], Some e)
      | inr r => ([r], None)
      end
  end.

Fixpoint qual_run (st : qstate) (lines : list string) : list SeqRecord * option py_error :=
  match lines with
  | [] => qual_eof st
  | line :: rest =>
      let '(out, next) := qual_step st line in
      match next with
      | inl e => (out, Some e)
      | inr st' => let '(rs, e) := qual_run st' rest in ((out ++ rs)%list, e)
      end
  end.

(** [QualPhredIterator(handle, alphabet, title2ids)], the handle given as its
    lines.  The check [line[0] != ">"] at the top of the record loop is not
    modelled: the loop is only re-entered on a '>' line. *)
Definition QualPhredIterator (lines : list string) : list SeqRecord * option py_error :=
  qual_run QSkip lines.

End Reader.

(** An exception of the writer: a Python one, or a failed [assert]. *)
Inductive write_error :=
| PyError (e : py_error)
| AssertionError.

(** [["%i" % round(q,0) for q in qualities]]; [round(None, 0)] raises a
    [TypeError]. *)
Fixpoint qual_strs (qualities : list pyscore) : py_error + list string :=
  match qualities with
  | [] => inr []
  | None :: _ => inl (TypeError "a float is required")
  | Some q :: rest =>
      match qual_strs rest with
      | inl e => inl e
      | inr ss => inr (str_of_Z (py_round q) :: ss)
      end
  end.

(** The [try ... except TypeError] block. *)
Definition qualities_strs (qualities : list pyscore) : py_error + list string :=
  match qual_strs qualities with
  | inl (TypeError m) =>
      if none_in qualities then inl (TypeError "A quality value of None was found")
      else inl (TypeError m)
  | r => r
  end.

(** The inner [while] loop: [line] is being filled, [rest] is what remains of
    [qualities_strs]; the lines written, in order. *)
Fixpoint wrap_lines (wrap : Z) (line : string) (rest : list string) : list string :=
  match rest with
  | [] => [line]
  | s :: rest' =>
      if Z.ltb (Z.of_nat (String.length line) + 1 + Z.of_nat (String.length s)) wrap
      then wrap_lines wrap (line ++ " " ++ s) rest'
      else line :: wrap_lines wrap s rest'
  end.

(** What [write_record] writes after the title line; [wrap] is [None] or an
    integer, [0] counting as false. *)
Definition qual_body (wrap : option Z) (qualities_strs : list string) : string :=
  match wrap with
  | Some w =>
      if Z.eqb w 0 then String.concat " " qualities_strs ++ nl
      else match qualities_strs with
           | [] => EmptyString
           | s :: rest => unlines (wrap_lines w s rest)
           end
  | None => String.concat " " qualities_strs ++ nl
  end.

(** [QualPhredWriter.__init__]: the [wrap] it keeps. *)
Definition QualPhredWriter_init (wrap : option Z) : py_error + option Z :=
  match wrap with
  | Some w => if negb (Z.eqb w 0) && Z.ltb w 1 then inl (ValueError EmptyString) else inr wrap
  | None => inr None
  end.

Definition has_char (c : ascii) (s : string) : bool :=
  existsb (Ascii.eqb c) (list_ascii_of_string s).

Section Writer.

Variable clean : string -> string.
Variable phred_of_solexa : pyscore -> pyscore.
Variable record2title : option (SeqRecord -> string).
Variable wrap : option Z.

(** The title: [clean(record2title(record))], or built from the cleaned id
    and description as in the FASTQ writers. *)
Definition qual_title_of (record : SeqRecord) : py_error + string :=
  match record2title with
  | Some f => inr (clean (f record))
  | None => fastq_title (clean (id record)) (clean (description record))
  end.

(** [QualPhredWriter.write_record]: the text written to the handle, and the
    exception raised, if any.  The title line is written before the scores
    are looked up. *)
Definition QualPhredWriter_write_record (record : SeqRecord)
  : string * option write_error :=
  match qual_title_of record with
  | inl e => (EmptyString, Some (PyError e))
  | inr title =>
      if has_char (ascii_of_nat 10) title || has_char (ascii_of_nat 13) title
      then (EmptyString, Some AssertionError)
      else
        let head := ">" ++ title ++ nl in
        match _get_phred_quality phred_of_solexa record with
        | inl e => (head, Some (PyError e))
        | inr qualities =>
            match qualities_strs qualities with
            | inl e => (head, Some (PyError e))
            | inr strs => (head ++ qual_body wrap strs, None)
            end
        end
  end.

End Writer.

End Qual.

(** ** Notions used in the statements *)

Import Fastq Readers Writers Paired Convert Qual.

(** A triple whose sequence and quality strings have the same length. *)
Definition balanced (r : raw_record) : Prop :=
  let '(_, s, q) := r in String.length s = String.length q.

(** [msg] contains [word]. *)
Definition mentions (word msg : string) : Prop :=
  exists pre post, msg = pre ++ (word ++ post).

Definition fasta_rec (i s : string) : SeqRecord :=
  {| seq := s; id := i; name := i; description := i; letter_annotations := [] |}.

Definition qual_rec (i : string) (qs : list Z) : SeqRecord :=
  {| seq := ""; id := i; name := i; description := i;
     letter_annotations := [("phred_quality", to_scores qs)] |}.

Definition in_chr_range (offset : Z) (q : Q) : Prop :=
  0 <= py_round (fl (q + inject_Z offset)) < 256.

Definition score_char (offset : Z) (q : Q) : ascii :=
  ascii_of_nat (Z.to_nat (py_round (fl (q + inject_Z offset)))).

(** The claim's reading: round the score, then add the offset. *)
Definition round_then_offset (offset : Z) (q : Q) : ascii :=
  ascii_of_nat (Z.to_nat (py_round q + offset)).

Fixpoint all_chars (p : ascii -> bool) (s : string) : bool :=
  match s with
  | EmptyString => true
  | String c r => p c && all_chars p r
  end.

Definition not_ws (c : ascii) : bool := negb (is_ws c).
Definition not_nl (c : ascii) : bool := negb (Ascii.eqb c (ascii_of_nat 10)).

(** The character the Sanger writer emits for an integer score. *)
Definition sanger_char (z : Z) : ascii := ascii_of_nat (Z.to_nat (z + 33)).

Definition phred_range (z : Z) : Prop := 0 <= z <= 93.

Definition read_one : SeqRecord :=
  {| seq := "ACGT"; id := "r1"; name := "r1"; description := "read one";
     letter_annotations := [("phred_quality", to_scores [30; 30; 30; 40])] |}.

Definition read_two : SeqRecord :=
  {| seq := "ACGT"; id := "r1"; name := "r1"; description := "r1 read one";
     letter_annotations := [("phred_quality", to_scores [30; 30; 30; 40])] |}.

(** A word [int] accepts that does not start a QUAL title line. *)
Definition qual_word (w : string) : Prop :=
  w <> EmptyString /\ all_chars not_ws w = true /\ starts_with ">" w = false.

(** The character a FASTQ writer emits for an integer score. *)
Definition offset_char (offset z : Z) : ascii := ascii_of_nat (Z.to_nat (z + offset)).

(** The text of FASTQ records written in the four-line layout. *)
Definition fastq_file (recs : list raw_record) : string :=
  fold_right (fun r acc => let '(T, s, Q) := r in fastq_text T s Q ++ acc) EmptyString recs.

Definition layout_ok (r : raw_record) : Prop :=
  let '(T, s, Q) := r in
  all_chars not_nl T = true /\ rstrip T = T /\ all_chars not_ws s = true /\
  all_chars not_ws Q = true /\ String.length s = String.length Q.

Definition solexa_read : SeqRecord :=
  {| seq := "ACGT"; id := "r1"; name := "r1"; description := "r1 read one";
     letter_annotations := [("solexa_quality", to_scores [-5; 0; 10; 40])] |}.

Definition short_read : SeqRecord :=
  {| seq := "ACG"; id := "r1"; name := "r1"; description := "r1";
     letter_annotations := [("phred_quality", to_scores [30; 30; 30; 40])] |}.

Definition two_reads : list string :=
  ["@a" ++ nl; "A" ++ nl; "+" ++ nl; "I" ++ nl; "@b" ++ nl; "A" ++ nl; "+" ++ nl; "5" ++ nl].

(** * Properties *)

Lemma close_inr : forall t s q r,
  close t s q = inr r -> r = (t, s, q) /\ String.length s = String.length q.
Proof.
  unfold close; intros t s q r H.
  destruct (Nat.eqb (String.length s) (String.length q)) eqn:E; [|discriminate].
  injection H as <-; split; [reflexivity | now apply Nat.eqb_eq].
Qed.

Lemma close_mismatch : forall t s q,
  String.length s <> String.length q ->
  close t s q = inl (ValueError (length_msg t (String.length s) (String.length q))).
Proof.
  unfold close; intros t s q H.
  destruct (Nat.eqb (String.length s) (String.length q)) eqn:E; [|reflexivity].
  apply Nat.eqb_eq in E; contradiction.
Qed.

Lemma step_emit_balanced : forall st line r st',
  fastq_step st line = Emit r st' -> balanced r.
Proof.
  intros st line r st' H; destruct st; simpl in H;
    repeat match goal with
           | H : context [if ?b then _ else _] |- _ => destruct b
           end; try discriminate.
  destruct (close title seq0 qual) eqn:C; [discriminate|].
  injection H as <- _; apply close_inr in C as [-> E]; exact E.
Qed.

Lemma eof_balanced : forall st, Forall balanced (fst (fastq_eof st)).
Proof.
  destruct st; simpl; auto.
  - destruct (close title seq0 "") eqn:C; simpl; auto.
    apply close_inr in C as [-> E]; constructor; [exact E | constructor].
  - destruct (close title seq0 qual) eqn:C; simpl; auto.
    apply close_inr in C as [-> E]; constructor; [exact E | constructor].
Qed.

Lemma run_balanced : forall lines st, Forall balanced (fst (run st lines)).
Proof.
  induction lines as [|line rest IH]; intros st; simpl.
  - apply eof_balanced.
  - destruct (fastq_step st line) as [st'|r st'|e] eqn:E; auto.
    specialize (IH st'); destruct (run st' rest) as [rs e]; simpl in *.
    constructor; [eapply step_emit_balanced; eexact E | exact IH].
Qed.

Lemma run_cons : forall st line rest,
  run st (line :: rest) =
  match fastq_step st line with
  | Continue st' => run st' rest
  | Emit r st' => let (rs, e) := run st' rest in (r :: rs, e)
  | Fail e => ([], Some e)
  end.
Proof. reflexivity. Qed.

(** Sequence lines up to the end of the file: no '+' line. *)
Lemma run_inseq_eof : forall lines title s,
  (forall l, In l lines -> starts_with "+" l = false) ->
  run (InSeq title s) lines = ([], Some (ValueError eof_msg)).
Proof.
  induction lines as [|line rest IH]; intros title s Hno; [reflexivity|].
  rewrite run_cons; simpl.
  rewrite (Hno line (or_introl eq_refl)).
  apply IH; intros l Hl; apply Hno; right; exact Hl.
Qed.

Lemma run_aftertitle_eof : forall lines title,
  (forall l, In l lines -> starts_with "+" l = false) ->
  run (AfterTitle title) lines = ([], Some (ValueError eof_msg)).
Proof.
  intros [|line rest] title Hno; [reflexivity|].
  rewrite run_cons; simpl.
  apply run_inseq_eof; intros l Hl; apply Hno; right; exact Hl.
Qed.

Lemma run_skip_eof : forall lines,
  (forall l, In l lines -> starts_with "+" l = false) ->
  (exists l, In l lines /\ starts_with "@" l = true) ->
  run Skip lines = ([], Some (ValueError eof_msg)).
Proof.
  induction lines as [|line rest IH]; intros Hno [l [Hin Hat]]; [destruct Hin|].
  rewrite run_cons; simpl.
  assert (Hrest : forall l, In l rest -> starts_with "+" l = false)
    by (intros l' Hl'; apply Hno; right; exact Hl').
  destruct (starts_with "@" line) eqn:E.
  - apply run_aftertitle_eof; exact Hrest.
  - destruct Hin as [<-|Hin]; [congruence|].
    apply IH; [exact Hrest | exists l; split; assumption].
Qed.

(** C1.  While the quality block is being read, a line starting with '@'
    ends the record (and becomes the title line of the next one) exactly
    when the quality text read so far is at least as long as the sequence;
    while it is shorter, the line (right-stripped) is appended to the
    quality text and the block goes on. *)
Theorem quality_at_line_rule : forall title seq qual line rest,
  starts_with "@" line = true ->
  ((String.length qual < String.length seq)%nat ->
     run (InQual title seq qual) (line :: rest)
     = run (InQual title seq (qual ++ rstrip line)) rest) /\
  ((String.length seq <= String.length qual)%nat ->
     run (InQual title seq qual) (line :: rest)
     = match close title seq qual with
       | inr r => let (rs, e) := run (AfterTitle (rstrip (tail1 line))) rest in (r :: rs, e)
       | inl e => ([], Some e)
       end).
Proof.
  intros title seq qual line rest Hat; split; intros Hlen;
    rewrite run_cons; simpl; rewrite Hat; simpl.
  - replace (Nat.leb (String.length seq) (String.length qual)) with false; [reflexivity|].
    symmetry; apply Nat.leb_gt; exact Hlen.
  - replace (Nat.leb (String.length seq) (String.length qual)) with true
      by (symmetry; apply Nat.leb_le; exact Hlen).
    destruct (close title seq qual); reflexivity.
Qed.

Lemma quality_at_line_rule_witness :
  starts_with "@" ("@I" ++ nl) = true /\
  run (InQual "r" "ACGT" "II") [("@I" ++ nl)] = run (InQual "r" "ACGT" ("II" ++ rstrip ("@I" ++ nl))) [] /\
  run (InQual "r" "ACGT" "II") [("@I" ++ nl)] = ([("r", "ACGT", "II@I")], None).
Proof.
  split; [reflexivity|].
  assert (E : run (InQual "r" "ACGT" "II") [("@I" ++ nl)]
              = run (InQual "r" "ACGT" ("II" ++ rstrip ("@I" ++ nl))) []).
  { apply (proj1 (quality_at_line_rule "r" "ACGT" "II" ("@I" ++ nl) [] eq_refl)).
    simpl; lia. }
  split; [exact E | rewrite E; reflexivity].
Defined.

(** C2.  Every triple FastqGeneralIterator yields has a sequence and a
    quality string of the same length; when the quality block closes (at a
    record-starting '@' line or at the end of the file, also with no quality
    line at all) with different lengths, the tokenizer raises the ValueError
    whose message carries the title and both lengths, and yields nothing more. *)
Theorem tokenizer_lengths_agree : forall lines title seq qual line rest,
  Forall balanced (fst (FastqGeneralIterator lines)) /\
  (String.length seq <> String.length qual ->
     run (InQual title seq qual) []
     = ([], Some (ValueError (length_msg title (String.length seq) (String.length qual)))) /\
     (starts_with "@" line = true -> (String.length seq <= String.length qual)%nat ->
        run (InQual title seq qual) (line :: rest)
        = ([], Some (ValueError (length_msg title (String.length seq) (String.length qual)))))) /\
  (String.length seq <> 0%nat ->
     run (AfterPlus title seq) [] = ([], Some (ValueError (length_msg title (String.length seq) 0)))).
Proof.
  intros lines title seq qual line rest; split; [apply run_balanced|split].
  - intros Hne; split.
    + simpl; rewrite (close_mismatch title seq qual Hne); reflexivity.
    + intros Hat Hle; rewrite (proj2 (quality_at_line_rule title seq qual line rest Hat) Hle).
      rewrite (close_mismatch title seq qual Hne); reflexivity.
  - intros Hne; simpl; rewrite (close_mismatch title seq "" Hne); reflexivity.
Qed.

Lemma tokenizer_lengths_agree_witness :
  String.length "ACGT" <> String.length "IIIII" /\
  starts_with "@" ("@next" ++ nl) = true /\
  run (InQual "r" "ACGT" "IIIII") [("@next" ++ nl)]
  = ([], Some (ValueError (length_msg "r" 4 5))).
Proof.
  assert (Hne : String.length "ACGT" <> String.length "IIIII") by (simpl; lia).
  split; [exact Hne | split; [reflexivity|]].
  destruct (tokenizer_lengths_agree [] "r" "ACGT" "IIIII" ("@next" ++ nl) []) as [_ [H _]].
  apply (proj2 (H Hne)); [reflexivity | simpl; lia].
Defined.

(** C10.  If the file ends after a title line before any line starting with
    '+' (still reading sequence lines), the tokenizer raises "End of file
    without quality information." and yields no record for that title; in
    particular a file with an '@' line and no '+' line yields nothing. *)
Theorem eof_without_quality : forall title s lines,
  (forall l, In l lines -> starts_with "+" l = false) ->
  run (AfterTitle title) lines = ([], Some (ValueError eof_msg)) /\
  run (InSeq title s) lines = ([], Some (ValueError eof_msg)) /\
  ((exists l, In l lines /\ starts_with "@" l = true) ->
   FastqGeneralIterator lines = ([], Some (ValueError eof_msg))).
Proof.
  intros title s lines Hno; split; [|split].
  - apply run_aftertitle_eof; exact Hno.
  - apply run_inseq_eof; exact Hno.
  - intros Hex; apply run_skip_eof; assumption.
Qed.

Lemma eof_without_quality_witness :
  (forall l, In l [("@r" ++ nl); ("ACGT" ++ nl)] -> starts_with "+" l = false) /\
  FastqGeneralIterator [("@r" ++ nl); ("ACGT" ++ nl)] = ([], Some (ValueError eof_msg)).
Proof.
  assert (Hno : forall l, In l [("@r" ++ nl); ("ACGT" ++ nl)] -> starts_with "+" l = false)
    by (intros l [<-|[<-|[]]]; reflexivity).
  split; [exact Hno|].
  apply (eof_without_quality "" "" _ Hno).
  exists ("@r" ++ nl); split; [left; reflexivity | reflexivity].
Defined.

(** ** Dialect readers *)

Lemma append_assoc_s : forall a b c : string, (a ++ b) ++ c = a ++ (b ++ c).
Proof. induction a as [|x a IH]; intros b c; simpl; [reflexivity | now rewrite IH]. Qed.

Lemma fold_min_ltb : forall xs x c,
  Z.ltb (fold_left Z.min xs x) c = Z.ltb x c || existsb (fun v => Z.ltb v c) xs.
Proof.
  induction xs as [|y ys IH]; intros x c; simpl; [now rewrite orb_false_r|].
  rewrite IH, orb_assoc; f_equal.
  destruct (Z.ltb_spec (Z.min x y) c), (Z.ltb_spec x c), (Z.ltb_spec y c); simpl; lia.
Qed.

Lemma fold_max_ltb : forall xs x c,
  Z.ltb c (fold_left Z.max xs x) = Z.ltb c x || existsb (fun v => Z.ltb c v) xs.
Proof.
  induction xs as [|y ys IH]; intros x c; simpl; [now rewrite orb_false_r|].
  rewrite IH, orb_assoc; f_equal.
  destruct (Z.ltb_spec c (Z.max x y)), (Z.ltb_spec c x), (Z.ltb_spec c y); simpl; lia.
Qed.

Lemma existsb_orb : forall {A} (f g : A -> bool) l,
  existsb (fun v => f v || g v) l = existsb f l || existsb g l.
Proof.
  induction l as [|x l IH]; simpl; [reflexivity|].
  rewrite IH; destruct (f x), (g x), (existsb f l), (existsb g l); reflexivity.
Qed.

(** The min/max test of the PHRED readers flags exactly the lists holding a
    value outside [0, 93]. *)
Lemma phred_out_of_range_spec : forall qs,
  phred_out_of_range qs = existsb (fun v => Z.ltb v 0 || Z.ltb 93 v) qs.
Proof.
  intros [|x xs]; [reflexivity|]; simpl.
  unfold py_min, py_max; rewrite fold_min_ltb, fold_max_ltb, existsb_orb.
  destruct (Z.ltb x 0), (Z.ltb 93 x), (existsb (fun v => Z.ltb v 0) xs),
    (existsb (fun v => Z.ltb 93 v) xs); reflexivity.
Qed.

Lemma solexa_min_spec : forall x xs,
  Z.ltb (py_min x xs) (-5) = existsb (fun v => Z.ltb v (-5)) (x :: xs).
Proof. intros x xs; unfold py_min; rewrite fold_min_ltb; reflexivity. Qed.

(** C4.  On each triple of the tokenizer, once the title is split (a failure
    there comes first), the Sanger and the Illumina 1.3+ readers raise their
    ValueError, and yield nothing for the record, exactly when some decoded
    value [ord(c) - offset] lies outside [0, 93]; the Solexa reader raises
    exactly when some decoded value is below -5; otherwise the record carries
    the decoded values unchanged.  The Sanger message points to the
    Solexa/Illumina variants, the Illumina one to Sanger and Solexa/Illumina,
    the Solexa one to Sanger. *)
Theorem readers_range_checks : forall title2ids title_line seq_string quality_string,
  phred_record title2ids (title_line, seq_string, quality_string) =
    match title_fields title2ids title_line with
    | inl e => inl e
    | inr fields =>
        let qs := decode SANGER_SCORE_OFFSET quality_string in
        if existsb (fun v => Z.ltb v 0 || Z.ltb 93 v) qs then inl (ValueError phred_msg)
        else inr (make_record fields seq_string "phred_quality" qs)
    end /\
  illumina_record title2ids (title_line, seq_string, quality_string) =
    match title_fields title2ids title_line with
    | inl e => inl e
    | inr fields =>
        let qs := decode SOLEXA_SCORE_OFFSET quality_string in
        if existsb (fun v => Z.ltb v 0 || Z.ltb 93 v) qs then inl (ValueError illumina_msg)
        else inr (make_record fields seq_string "phred_quality" qs)
    end /\
  solexa_record title2ids (title_line, seq_string, quality_string) =
    match solexa_title_fields title2ids title_line with
    | inl e => inl e
    | inr fields =>
        let qs := decode SOLEXA_SCORE_OFFSET quality_string in
        if existsb (fun v => Z.ltb v (-5)) qs
        then inl (ValueError (solexa_msg (fold_left Z.min (tl qs) (hd 0 qs))))
        else inr (make_record fields seq_string "solexa_quality" qs)
    end /\
  mentions "Solexa/Illumina" phred_msg /\
  mentions "Sanger" illumina_msg /\ mentions "Solexa/Illumina" illumina_msg /\
  (forall m, mentions "Sanger" (solexa_msg m)).
Proof.
  intros title2ids title_line seq_string quality_string.
  split; [|split; [|split; [|split; [|split; [|split]]]]].
  - simpl; destruct (title_fields title2ids title_line); [reflexivity|].
    rewrite phred_out_of_range_spec; reflexivity.
  - simpl; destruct (title_fields title2ids title_line); [reflexivity|].
    rewrite phred_out_of_range_spec; reflexivity.
  - simpl; destruct (solexa_title_fields title2ids title_line); [reflexivity|].
    destruct (decode SOLEXA_SCORE_OFFSET quality_string) as [|x xs]; [reflexivity|].
    rewrite solexa_min_spec; reflexivity.
  - exists "PHRED quality score outside 0 to 93 found - your file is probably not in the standard Sanger FASTQ format. Check if it is one of the".
    exists " variants instead."; reflexivity.
  - exists "PHRED quality score outside 0 to 93 found - your file is probably not in the Illumina 1.3+ FASTQ format. Check if it is a standard ".
    exists " FASTQ file or from an older Solexa/Illumina pipeline."; reflexivity.
  - exists "PHRED quality score outside 0 to 93 found - your file is probably not in the Illumina 1.3+ FASTQ format. Check if it is a standard Sanger FASTQ file or from an older ".
    exists " pipeline."; reflexivity.
  - intros m; unfold solexa_msg.
    exists ("Solexa quality score of " ++ (str_of_Z m ++ " found, less than -5. Your file is probably not in the original Solexa (or early Illumina) format. Check if it is a standard ")).
    exists " FASTQ file.".
    rewrite !append_assoc_s; reflexivity.
Qed.

(** C6 (failing input).  Given the override [title2ids] (here the constant
    function returning ("X", "Y", "Z")), the Sanger and Illumina 1.3+ readers
    take id, name and description from it, but the Solexa reader unpacks the
    title string itself: a three-letter title gives the three letters, any
    other title raises a ValueError. *)
Theorem solexa_reader_ignores_title2ids :
  let f : title2ids_t := Some (fun _ => ("X", "Y", "Z")) in
  let lines := readlines (unlines ["@abc"; "A"; "+"; "h"]) in
  FastqPhredIterator f lines
  = ([{| seq := "A"; id := "X"; name := "Y"; description := "Z";
         letter_annotations := [("phred_quality", to_scores [71])] |}], None) /\
  FastqIlluminaIterator f lines
  = ([{| seq := "A"; id := "X"; name := "Y"; description := "Z";
         letter_annotations := [("phred_quality", to_scores [40])] |}], None) /\
  FastqSolexaIterator f lines
  = ([{| seq := "A"; id := "a"; name := "b"; description := "c";
         letter_annotations := [("solexa_quality", to_scores [40])] |}], None) /\
  FastqSolexaIterator f (readlines (unlines ["@read1"; "A"; "+"; "h"]))
  = ([], Some (ValueError "too many values to unpack")).
Proof. vm_compute; repeat split. Qed.

(** ** PairedFastaQualIterator *)

(** C8 (failing input).  Three FASTA records against two QUAL records with
    the same leading identifiers: two merged records, then the ValueError
    "QUAL file has more entries than the FASTA file." although the QUAL file
    is the one that ran out; the other way round the message blames the
    FASTA file, which ran out.  Lockstep pairing and the identifier check
    behave as documented. *)
Theorem paired_unbalanced_messages_swapped :
  PairedFastaQualIterator
    [fasta_rec "a" "AC"; fasta_rec "b" "GT"; fasta_rec "c" "TT"]
    [qual_rec "a" [20; 21]; qual_rec "b" [30; 31]]
  = ([{| seq := "AC"; id := "a"; name := "a"; description := "a";
         letter_annotations := [("phred_quality", to_scores [20; 21])] |};
      {| seq := "GT"; id := "b"; name := "b"; description := "b";
         letter_annotations := [("phred_quality", to_scores [30; 31])] |}],
     Some (ValueError "QUAL file has more entries than the FASTA file.")) /\
  PairedFastaQualIterator
    [fasta_rec "a" "AC"]
    [qual_rec "a" [20; 21]; qual_rec "b" [30; 31]]
  = ([{| seq := "AC"; id := "a"; name := "a"; description := "a";
         letter_annotations := [("phred_quality", to_scores [20; 21])] |}],
     Some (ValueError "FASTA file has more entries than the QUAL file.")) /\
  PairedFastaQualIterator
    [fasta_rec "a" "AC"; fasta_rec "b" "GT"]
    [qual_rec "a" [20; 21]; qual_rec "c" [30; 31]]
  = ([{| seq := "AC"; id := "a"; name := "a"; description := "a";
         letter_annotations := [("phred_quality", to_scores [20; 21])] |}],
     Some (ValueError "FASTA and QUAL entries do not match (b vs c).")).
Proof. vm_compute; repeat split. Qed.

(** ** Writers: the character written for a score *)

Lemma py_chr_ok : forall n, 0 <= n < 256 -> py_chr n = inr (ascii_of_nat (Z.to_nat n)).
Proof.
  intros n Hn; unfold py_chr.
  replace (Z.leb 0 n && Z.ltb n 256) with true; [reflexivity|].
  symmetry; apply andb_true_intro; split; [apply Z.leb_le | apply Z.ltb_lt]; lia.
Qed.

(** Float sums of a score and an offset. *)

Lemma py_round_comp : forall x y, (x == y)%Q -> py_round x = py_round y.
Proof.
  intros x y H; unfold py_round.
  destruct (Qle_bool 0 x) eqn:Ex, (Qle_bool 0 y) eqn:Ey.
  - apply Qfloor_comp; rewrite H; reflexivity.
  - apply Qle_bool_iff in Ex; rewrite H in Ex; apply Qle_bool_iff in Ex; congruence.
  - apply Qle_bool_iff in Ey; rewrite <- H in Ey; apply Qle_bool_iff in Ey; congruence.
  - f_equal; apply Qfloor_comp; rewrite H; reflexivity.
Qed.

Lemma fl_dyadic_exact : forall x j,
  Zpos (Qden x) = 2 ^ j -> 0 <= j <= 1074 -> Z.abs (Qnum x) < 2 ^ 53 -> (fl x == x)%Q.
Proof.
  intros [n p] j Hd Hj Hn; simpl in Hd, Hn |- *.
  unfold fl; cbn [Qnum Qden].
  destruct (Z.eqb_spec (Z.abs n) 0) as [H0|H0].
  { assert (n = 0) by lia; subst n; reflexivity. }
  set (a := Z.abs n) in *.
  assert (Ha : 0 < a) by lia.
  pose proof (Z.log2_spec a Ha) as [La1 La2].
  assert (HL : Z.log2 a <= 52).
  { destruct (Z.le_gt_cases (Z.log2 a) 52) as [|Hc]; [assumption|].
    assert (2 ^ 53 <= 2 ^ Z.log2 a) by (apply Z.pow_le_mono_r; lia). lia. }
  pose proof (Z.log2_nonneg a) as HL0.
  rewrite Hd, Z.log2_pow2 by lia.
  replace (if Z.ltb (a * 2 ^ Z.max (- (Z.log2 a - j)) 0) (2 ^ j * 2 ^ Z.max (Z.log2 a - j) 0)
           then Z.log2 a - j - 1 else Z.log2 a - j) with (Z.log2 a - j).
  2:{ destruct (Z.ltb_spec (a * 2 ^ Z.max (- (Z.log2 a - j)) 0) (2 ^ j * 2 ^ Z.max (Z.log2 a - j) 0))
        as [Hc|Hc]; [exfalso|reflexivity].
      destruct (Z.le_gt_cases j (Z.log2 a)).
      - rewrite Z.max_r in Hc by lia; rewrite Z.max_l in Hc by lia.
        rewrite <- Z.pow_add_r in Hc by lia.
        replace (j + (Z.log2 a - j)) with (Z.log2 a) in Hc by ring. lia.
      - rewrite Z.max_l in Hc by lia; rewrite Z.max_r in Hc by lia.
        rewrite Z.pow_0_r, Z.mul_1_r in Hc.
        assert (Hs : 2 ^ j = 2 ^ Z.log2 a * 2 ^ (- (Z.log2 a - j)))
          by (rewrite <- Z.pow_add_r by lia; f_equal; ring).
        pose proof (Z.pow_pos_nonneg 2 (- (Z.log2 a - j)) ltac:(lia) ltac:(lia)).
        nia. }
  set (e := Z.max (Z.log2 a - j - 52) (-1074)).
  assert (He : e <= - j) by (unfold e; lia).
  rewrite (Z.max_l (- e) 0) by lia.
  rewrite (Z.max_r e 0) by lia.
  rewrite Z.pow_0_r, !Z.mul_1_r.
  assert (Hsplit : 2 ^ (- e) = 2 ^ (- e - j) * 2 ^ j)
    by (rewrite <- Z.pow_add_r by lia; f_equal; ring).
  assert (Hpj : 0 < 2 ^ j) by (apply Z.pow_pos_nonneg; lia).
  assert (Hpe : 0 < 2 ^ (- e - j)) by (apply Z.pow_pos_nonneg; lia).
  assert (Hm : Z_round_even (a * 2 ^ (- e)) (2 ^ j) = a * 2 ^ (- e - j)).
  { unfold Z_round_even.
    rewrite Hsplit, Z.mul_assoc, Z.div_mul, Z.mod_mul by lia.
    rewrite Z.mul_0_r; destruct (Z.compare_spec 0 (2 ^ j)); try lia; reflexivity. }
  rewrite Hm.
  assert (Hpos : Z.pos (Z.to_pos (2 ^ (- e))) = 2 ^ (- e))
    by (apply Z2Pos.id; apply Z.pow_pos_nonneg; lia).
  destruct (Z.ltb_spec n 0).
  - unfold Qeq, Qopp; simpl; rewrite Hpos, Hd.
    unfold a; rewrite Z.abs_neq by lia. rewrite Hsplit; ring.
  - unfold Qeq; simpl; rewrite Hpos, Hd.
    unfold a; rewrite Z.abs_eq by lia. rewrite Hsplit; ring.
Qed.

Lemma fl_int_sum : forall a b, Z.abs (a + b) < 2 ^ 53 ->
  (fl (inject_Z a + inject_Z b) == inject_Z (a + b))%Q.
Proof.
  intros a b H.
  rewrite (fl_dyadic_exact _ 0); [| reflexivity | lia | simpl; rewrite !Z.mul_1_r; exact H].
  unfold Qeq; simpl; ring.
Qed.

(** Integer scores are written without rounding. *)
Lemma py_round_fl_int : forall a b, Z.abs (a + b) < 9007199254740992 ->
  py_round (fl (inject_Z a + inject_Z b)) = a + b.
Proof.
  intros a b H; rewrite (py_round_comp _ _ (fl_int_sum a b H)).
  unfold py_round, Qfloor, inject_Z, Qplus; simpl.
  destruct (Qle_bool _ _).
  - symmetry; apply (Z.div_unique _ _ _ 1); [left; lia | ring].
  - rewrite <- (Z.div_unique _ _ (- (a + b)) 1); [ring | left; lia | ring].
Qed.

Lemma encode_each_ok : forall offset qs,
  Forall (in_chr_range offset) qs ->
  encode_each offset (map Some qs) = inr (string_of_list_ascii (map (score_char offset) qs)).
Proof.
  intros offset qs H; induction H as [|q qs Hq _ IH]; simpl; [reflexivity|].
  rewrite (py_chr_ok _ Hq), IH; reflexivity.
Qed.

Lemma encode_each_none : forall offset pre post,
  Forall (in_chr_range offset) pre ->
  encode_each offset (map Some pre ++ None :: post)
  = inl (TypeError "unsupported operand type(s) for +").
Proof.
  intros offset pre post H; induction H as [|q qs Hq _ IH]; simpl; [reflexivity|].
  rewrite (py_chr_ok _ Hq), IH; reflexivity.
Qed.

(** C3 (counterexample).  The Solexa writer (offset 64) writes the score
    -2.5 as chr(round(61.5)) = chr(62) = ">", not chr(round(-2.5) + 64) =
    chr(61) = "=". *)
Lemma rounding_after_offset_counterexample :
  encode_qualities SOLEXA_SCORE_OFFSET [Some (-5 # 2)] = inr ">" /\
  round_then_offset SOLEXA_SCORE_OFFSET (-5 # 2) = "="%char /\
  ~ (forall q offset, encode_qualities offset [Some q]
                      = inr (String (round_then_offset offset q) EmptyString)).
Proof.
  split; [vm_compute; reflexivity | split; [vm_compute; reflexivity|]].
  intros H; specialize (H (-5 # 2) SOLEXA_SCORE_OFFSET); vm_compute in H.
  inversion H.
Qed.

(** C3 (amended).  The FASTQ writers write the score q as the character with
    code point round(q + offset): the float sum q + offset (rounded to the
    nearest double), then Python 2 rounding (halves away from zero), which is
    floor(s + 1/2) for a sum s that is not negative, as long as every code
    point is in 0..255; a None score (after in-range scores) fails the whole
    encoding with the TypeError "A quality value of None was found".  The
    float sum is exact when q = n / 2^j with 0 <= j <= 1074 and
    |n + offset * 2^j| < 2^53 (every int score, and every double score whose
    sum with the offset needs no more than 53 significant bits). *)
Theorem writer_char_rounding : forall offset qs pre post q j,
  (Forall (in_chr_range offset) qs ->
   encode_qualities offset (map Some qs)
   = inr (string_of_list_ascii (map (score_char offset) qs))) /\
  (Forall (in_chr_range offset) pre ->
   encode_qualities offset (map Some pre ++ None :: post)
   = inl (TypeError "A quality value of None was found")) /\
  ((0 <= fl (q + inject_Z offset))%Q ->
   py_round (fl (q + inject_Z offset)) = Qfloor (fl (q + inject_Z offset) + (1 # 2))) /\
  (Zpos (Qden q) = 2 ^ j -> 0 <= j <= 1074 ->
   Z.abs (Qnum q + offset * 2 ^ j) < 2 ^ 53 ->
   py_round (fl (q + inject_Z offset)) = py_round (q + inject_Z offset)).
Proof.
  intros offset qs pre post q j; split; [|split; [|split]].
  - intros H; unfold encode_qualities; rewrite (encode_each_ok _ _ H); reflexivity.
  - intros H; unfold encode_qualities; rewrite (encode_each_none _ _ post H).
    unfold none_in; rewrite existsb_app; simpl; rewrite orb_true_r; reflexivity.
  - intros H; unfold py_round.
    replace (Qle_bool 0 (fl (q + inject_Z offset))) with true; [reflexivity|].
    symmetry; apply Qle_bool_iff; exact H.
  - intros Hd Hj Hn; apply py_round_comp.
    apply (fl_dyadic_exact _ j); [simpl; rewrite Pos.mul_1_r; exact Hd | exact Hj |].
    simpl; rewrite Z.mul_1_r, Hd; exact Hn.
Qed.

Lemma writer_char_rounding_witness :
  Forall (in_chr_range SOLEXA_SCORE_OFFSET) [(-5 # 2); (40 # 1)] /\
  encode_qualities SOLEXA_SCORE_OFFSET (map Some [(-5 # 2); (40 # 1)]) = inr ">h" /\
  encode_qualities SOLEXA_SCORE_OFFSET (map Some [(40 # 1)] ++ None :: [])
  = inl (TypeError "A quality value of None was found") /\
  py_round (fl ((-5 # 2) + inject_Z SOLEXA_SCORE_OFFSET)) = 62 /\
  py_round (fl ((-5 # 2) + inject_Z SOLEXA_SCORE_OFFSET))
  = py_round ((-5 # 2) + inject_Z SOLEXA_SCORE_OFFSET) /\
  Forall (in_chr_range SANGER_SCORE_OFFSET) [(9007199254740991 # 18014398509481984)] /\
  encode_qualities SANGER_SCORE_OFFSET [Some (9007199254740991 # 18014398509481984)]
  = inr (String (ascii_of_nat 34) EmptyString) /\
  py_round ((9007199254740991 # 18014398509481984) + inject_Z SANGER_SCORE_OFFSET) = 33.
Proof.
  assert (Hr : Forall (in_chr_range SOLEXA_SCORE_OFFSET) [(-5 # 2); (40 # 1)])
    by (constructor; [|constructor; [|constructor]];
        unfold in_chr_range; vm_compute; split; congruence).
  assert (Hs : Forall (in_chr_range SANGER_SCORE_OFFSET) [(9007199254740991 # 18014398509481984)])
    by (constructor; [|constructor]; unfold in_chr_range; vm_compute; split; congruence).
  destruct (writer_char_rounding SOLEXA_SCORE_OFFSET [(-5 # 2); (40 # 1)] [(40 # 1)] []
              (-5 # 2) 1) as [H1 [H2 [H3 H4]]].
  destruct (writer_char_rounding SANGER_SCORE_OFFSET [(9007199254740991 # 18014398509481984)]
              [] [] 0 0) as [H5 _].
  split; [exact Hr | split; [|split; [|split; [|split; [|split; [|split]]]]]].
  - rewrite (H1 Hr); vm_compute; reflexivity.
  - apply H2; inversion Hr as [|a b _ Hr']; exact Hr'.
  - rewrite H3; [vm_compute; reflexivity | vm_compute; congruence].
  - apply H4; [reflexivity | lia | vm_compute; reflexivity].
  - exact Hs.
  - exact (H5 Hs).
  - vm_compute; reflexivity.
Defined.

(** ** PHRED and Solexa conversions *)

Local Open Scope R_scope.

(** Rounding to the nearest double. *)

Lemma Int_part_unique : forall r z, IZR z <= r < IZR z + 1 -> Int_part r = z.
Proof. intros r z H; symmetry; apply Int_part_spec; lra. Qed.

Lemma ln2_pos : 0 < ln 2.
Proof. pose proof ln_lt_2; lra. Qed.

Lemma pow2_exp : forall k, powerRZ 2 k = exp (IZR k * ln 2).
Proof. intros k; rewrite powerRZ_Rpower by lra; reflexivity. Qed.

Lemma flog2_spec : forall x, 0 < x ->
  powerRZ 2 (flog2 x) <= x < powerRZ 2 (flog2 x + 1).
Proof.
  intros x Hx; unfold flog2.
  pose proof (base_Int_part (ln x / ln 2)) as [H1 H2].
  pose proof ln2_pos as Hl.
  set (k := Int_part (ln x / ln 2)) in *.
  rewrite !pow2_exp, plus_IZR.
  assert (E1 : IZR k * ln 2 <= ln x).
  { apply (Rmult_le_compat_r (ln 2)) in H1; [|lra].
    unfold Rdiv in H1; rewrite Rmult_assoc, Rinv_l, Rmult_1_r in H1; lra. }
  assert (E2 : ln x < (IZR k + 1) * ln 2).
  { assert (H3 : ln x / ln 2 < IZR k + 1) by lra.
    apply (Rmult_lt_compat_r (ln 2)) in H3; [|lra].
    unfold Rdiv in H3; rewrite Rmult_assoc, Rinv_l, Rmult_1_r in H3; lra. }
  split.
  - apply Rle_trans with (exp (ln x)); [|rewrite exp_ln; lra].
    destruct (Req_dec (IZR k * ln 2) (ln x)) as [E|N]; [rewrite E; lra|].
    left; apply exp_increasing; lra.
  - replace x with (exp (ln x)) at 1 by (apply exp_ln; exact Hx).
    apply exp_increasing; exact E2.
Qed.

Lemma flog2_unique : forall x k, 0 < x ->
  powerRZ 2 k <= x < powerRZ 2 (k + 1) -> flog2 x = k.
Proof.
  intros x k Hx [H1 H2]; unfold flog2; apply Int_part_unique.
  pose proof ln2_pos as Hl.
  rewrite pow2_exp in H1, H2; rewrite plus_IZR in H2.
  assert (L1 : IZR k * ln 2 <= ln x).
  { destruct (Req_dec (exp (IZR k * ln 2)) x) as [E|N].
    - rewrite <- E, ln_exp; lra.
    - left; rewrite <- (ln_exp (IZR k * ln 2)); apply ln_increasing; [apply exp_pos | lra]. }
  assert (L2 : ln x < (IZR k + 1) * ln 2).
  { rewrite <- (ln_exp ((IZR k + 1) * ln 2)); apply ln_increasing; lra. }
  split.
  - apply (Rmult_le_reg_r (ln 2)); [lra|].
    unfold Rdiv; rewrite Rmult_assoc, Rinv_l, Rmult_1_r; lra.
  - apply (Rmult_lt_reg_r (ln 2)); [lra|].
    unfold Rdiv; rewrite Rmult_assoc, Rinv_l, Rmult_1_r; lra.
Qed.

Lemma round_even_R_err : forall s, Rabs (s - IZR (round_even_R s)) <= / 2.
Proof.
  intros s; unfold round_even_R.
  pose proof (base_Int_part s) as [H1 H2].
  set (f := Int_part s) in *.
  destruct (Rlt_dec (s - IZR f) (/ 2)).
  - rewrite Rabs_right; lra.
  - destruct (Rlt_dec (/ 2) (s - IZR f)).
    + rewrite plus_IZR, Rabs_left1; lra.
    + destruct (Z.even f); [rewrite Rabs_right; lra|].
      rewrite plus_IZR, Rabs_left1; lra.
Qed.

Lemma round_even_R_nonneg : forall s, 0 <= s -> (0 <= round_even_R s)%Z.
Proof.
  intros s Hs; unfold round_even_R.
  pose proof (base_Int_part s) as [H1 H2].
  assert (-1 < Int_part s)%Z by (apply lt_IZR; lra).
  destruct (Rlt_dec _ _); [lia|]; destruct (Rlt_dec _ _); [lia|]; destruct (Z.even _); lia.
Qed.

Lemma powerRZ_2_sub1 : forall e, powerRZ 2 e * / 2 = powerRZ 2 (e - 1).
Proof.
  intros e; replace (e - 1)%Z with (e + -1)%Z by lia.
  rewrite powerRZ_add by lra; simpl; f_equal; field.
Qed.

Lemma round64_err_pow : forall x, x <> 0 ->
  Rabs (round64 x - x) <= powerRZ 2 (Z.max (flog2 (Rabs x) - 52) (-1074) - 1).
Proof.
  intros x Hx; unfold round64.
  destruct (Req_dec_T x 0) as [E|_]; [contradiction|].
  set (e := Z.max (flog2 (Rabs x) - 52) (-1074)).
  set (s := Rabs x / powerRZ 2 e).
  pose proof (round_even_R_err s) as Hm.
  set (m := round_even_R s) in *.
  assert (Hp : 0 < powerRZ 2 e) by (apply powerRZ_lt; lra).
  assert (Ha : Rabs x = s * powerRZ 2 e) by (unfold s; field; lra).
  assert (Hd : Rabs (IZR m * powerRZ 2 e - Rabs x) <= powerRZ 2 e * / 2).
  { rewrite Ha, <- Rmult_minus_distr_r, Rabs_mult, (Rabs_right (powerRZ 2 e)) by lra.
    rewrite <- Rabs_Ropp, Ropp_minus_distr, Rmult_comm.
    apply Rmult_le_compat_l; lra. }
  rewrite <- powerRZ_2_sub1.
  destruct (Rlt_dec x 0).
  - rewrite (Rabs_left x) in Hd by lra.
    replace (- (IZR m * powerRZ 2 e) - x) with (- (IZR m * powerRZ 2 e - - x)) by ring.
    rewrite Rabs_Ropp; exact Hd.
  - rewrite (Rabs_right x) in Hd by lra; exact Hd.
Qed.

Lemma round64_err : forall x,
  Rabs (round64 x - x) <= Rabs x * powerRZ 2 (-53) + powerRZ 2 (-1075).
Proof.
  intros x.
  assert (H0 : 0 < powerRZ 2 (-1075)) by (apply powerRZ_lt; lra).
  destruct (Req_dec x 0) as [->|Hx].
  { unfold round64; destruct (Req_dec_T 0 0); [|contradiction].
    rewrite Rminus_0_r, Rabs_R0; lra. }
  pose proof (round64_err_pow x Hx) as H.
  assert (Hax : 0 < Rabs x) by (apply Rabs_pos_lt; exact Hx).
  pose proof (flog2_spec (Rabs x) Hax) as [F1 _].
  assert (0 <= Rabs x * powerRZ 2 (-53))
    by (apply Rmult_le_pos; [lra | apply powerRZ_le; lra]).
  destruct (Z.le_gt_cases (-1074) (flog2 (Rabs x) - 52)).
  - rewrite Z.max_l in H by lia.
    replace (flog2 (Rabs x) - 52 - 1)%Z with (flog2 (Rabs x) + -53)%Z in H by lia.
    rewrite powerRZ_add in H by lra.
    assert (powerRZ 2 (flog2 (Rabs x)) * powerRZ 2 (-53) <= Rabs x * powerRZ 2 (-53))
      by (apply Rmult_le_compat_r; [apply powerRZ_le; lra | exact F1]).
    lra.
  - rewrite Z.max_r in H by lia; simpl (-1074 - 1)%Z in H; lra.
Qed.

Lemma round64_nonneg : forall x, 0 <= x -> 0 <= round64 x.
Proof.
  intros x Hx; unfold round64.
  destruct (Req_dec_T x 0); [lra|].
  destruct (Rlt_dec x 0); [lra|].
  apply Rmult_le_pos; [apply IZR_le, round_even_R_nonneg | apply powerRZ_le; lra].
  unfold Rdiv; apply Rmult_le_pos; [apply Rabs_pos | left; apply Rinv_0_lt_compat, powerRZ_lt; lra].
Qed.

Lemma powerRZ_2_53 : powerRZ 2 (-53) = / 9007199254740992.
Proof.
  cbn [powerRZ]; f_equal.
  simpl; lra.
Qed.

Lemma powerRZ_2_1075 : powerRZ 2 (-1075) <= / 1152921504606846976.
Proof.
  replace (-1075)%Z with (-60 + -1015)%Z by lia.
  rewrite powerRZ_add by lra.
  assert (E : powerRZ 2 (-60) = / 1152921504606846976).
  { cbn [powerRZ]; f_equal; simpl; lra. }
  rewrite E.
  assert (powerRZ 2 (-1015) <= 1).
  { rewrite powerRZ_Rpower by lra. rewrite <- (Rpower_O 2) by lra.
    apply Rle_Rpower; [lra|]. apply IZR_le; lia. }
  assert (0 < powerRZ 2 (-1015)) by (apply powerRZ_lt; lra).
  assert (0 < / 1152921504606846976) by (apply Rinv_0_lt_compat; lra).
  rewrite <- (Rmult_1_r (/ 1152921504606846976)) at 2.
  apply Rmult_le_compat_l; lra.
Qed.

(** The rounding error, in numbers. *)
Lemma round64_bound : forall x,
  Rabs (round64 x - x) <= Rabs x / 9007199254740992 + / 1152921504606846976.
Proof.
  intros x; pose proof (round64_err x) as H.
  rewrite powerRZ_2_53 in H; pose proof powerRZ_2_1075; unfold Rdiv; lra.
Qed.

Lemma round64_one : forall x, 1 <= x <= 1 + / 9007199254740992 -> round64 x = 1.
Proof.
  intros x Hx; unfold round64.
  destruct (Req_dec_T x 0); [lra|].
  rewrite Rabs_right by lra.
  assert (Hf : flog2 x = 0%Z).
  { apply flog2_unique; [lra|]; simpl; lra. }
  cbv zeta; rewrite Hf.
  replace (Z.max (0 - 52) (-1074)) with (-52)%Z by reflexivity.
  assert (Hp : powerRZ 2 (-52) = / 4503599627370496).
  { cbn [powerRZ]; f_equal; simpl; lra. }
  rewrite Hp.
  assert (Hm : round_even_R (x / / 4503599627370496) = 4503599627370496%Z).
  { unfold round_even_R.
    assert (Hi : Int_part (x / / 4503599627370496) = 4503599627370496%Z).
    { apply Int_part_unique. unfold Rdiv; rewrite Rinv_inv. split; lra. }
    rewrite Hi.
    destruct (Rlt_dec _ _); [reflexivity|].
    destruct (Rlt_dec _ _) as [Hc|]; [|reflexivity].
    exfalso; unfold Rdiv in Hc; rewrite Rinv_inv in Hc; lra. }
  rewrite Hm.
  destruct (Rlt_dec x 0); [lra|]. lra.
Qed.

Lemma round64_0 : round64 0 = 0.
Proof. unfold round64; destruct (Req_dec_T 0 0); [reflexivity | contradiction]. Qed.

(** Powers of ten and their overflow. *)

Lemma ln10_bounds : 2 < ln 10 < 4.
Proof.
  pose proof exp_le_3 as H3. pose proof (exp_ineq1_le 1) as H2.
  assert (E2 : exp 2 = exp 1 * exp 1) by (rewrite <- exp_plus; f_equal; lra).
  assert (E4 : exp 4 = exp 2 * exp 2) by (rewrite <- exp_plus; f_equal; lra).
  split.
  - rewrite <- (ln_exp 2); apply ln_increasing; [apply exp_pos|].
    rewrite E2; assert (exp 1 * exp 1 <= 3 * 3) by (apply Rmult_le_compat; lra); lra.
  - rewrite <- (ln_exp 4); apply ln_increasing; [lra|].
    rewrite E4, E2.
    assert (2 * 2 <= exp 1 * exp 1) by (apply Rmult_le_compat; lra).
    assert (4 * 4 <= (exp 1 * exp 1) * (exp 1 * exp 1)) by (apply Rmult_le_compat; lra); lra.
Qed.

Lemma Rpower10_IZR : forall n : nat, Rpower 10 (INR n) = IZR (10 ^ Z.of_nat n).
Proof. intros n; rewrite Rpower_pow by lra; rewrite pow_IZR; reflexivity. Qed.

Lemma overflow_bound_range : Rpower 10 308 < overflow_bound <= Rpower 10 309.
Proof.
  replace 308 with (INR 308) by (rewrite INR_IZR_INZ; reflexivity).
  replace 309 with (INR 309) by (rewrite INR_IZR_INZ; reflexivity).
  rewrite !Rpower10_IZR; unfold overflow_bound; split.
  - apply IZR_lt; vm_compute; reflexivity.
  - apply IZR_le; vm_compute; discriminate.
Qed.

Lemma Rpower10_ge : forall z, 0 <= z -> 1 + 2 * z <= Rpower 10 z.
Proof.
  intros z Hz; unfold Rpower; pose proof ln10_bounds.
  pose proof (exp_ineq1_le (z * ln 10)); nra.
Qed.

Lemma Rpower10_le : forall z, 0 <= z <= / 10 -> Rpower 10 z <= / (1 - 4 * z).
Proof.
  intros z Hz; unfold Rpower; pose proof ln10_bounds.
  pose proof (exp_ineq1_le (- (z * ln 10))) as He.
  rewrite <- (Rinv_inv (exp (z * ln 10))).
  rewrite <- exp_Ropp.
  apply Rinv_le_contravar; nra.
Qed.

Lemma round64_bounds : forall x,
  x - Rabs x / 9007199254740992 - / 1152921504606846976 <= round64 x <=
  x + Rabs x / 9007199254740992 + / 1152921504606846976.
Proof.
  intros x; pose proof (round64_bound x) as H.
  unfold Rabs at 1 in H; destruct (Rcase_abs (round64 x - x)); lra.
Qed.

Lemma pow10_overflow : forall x, 3100 <= x ->
  py_pow10 (round64 (x / 10)) = inl (OverflowError overflow_msg).
Proof.
  intros x Hx; unfold py_pow10.
  pose proof (round64_bounds (x / 10)) as Hy.
  rewrite Rabs_right in Hy by lra.
  pose proof overflow_bound_range as [_ Hb].
  destruct (Rle_dec overflow_bound (Rpower 10 (round64 (x / 10)))) as [|Hn]; [reflexivity|].
  exfalso; apply Hn; eapply Rle_trans; [exact Hb|].
  apply Rle_Rpower; lra.
Qed.

Lemma pow10_no_overflow : forall x, x <= 3070 ->
  py_pow10 (round64 (x / 10)) = inr (round64 (Rpower 10 (round64 (x / 10)))).
Proof.
  intros x Hx; unfold py_pow10.
  pose proof (round64_bounds (x / 10)) as Hy.
  assert (Hy' : round64 (x / 10) <= 308)
    by (unfold Rabs in Hy; destruct (Rcase_abs (x / 10)); lra).
  pose proof overflow_bound_range as [Hb _].
  destruct (Rle_dec overflow_bound (Rpower 10 (round64 (x / 10)))) as [Hc|]; [|reflexivity].
  exfalso; assert (Rpower 10 (round64 (x / 10)) <= Rpower 10 308) by (apply Rle_Rpower; lra).
  lra.
Qed.

Lemma Rpower10_pos : forall z, 0 < Rpower 10 z.
Proof. intros z; unfold Rpower; apply exp_pos. Qed.

Lemma round64_pos : forall x, / 1000000 <= x -> 0 < round64 x.
Proof.
  intros x Hx; pose proof (round64_bounds x) as H.
  rewrite Rabs_right in H by lra; lra.
Qed.

Lemma py_log10_pos : forall u, 0 < u ->
  py_log10 u = inr (round64 (round64 (ln u) / round64 (ln 10))).
Proof.
  intros u Hu; unfold py_log10; destruct (Rle_dec u 0); [lra | reflexivity].
Qed.

Lemma pow10_tiny : forall p, 0 <= p <= / 10000000000000000 ->
  py_pow10 (round64 (p / 10)) = inr 1.
Proof.
  intros p Hp.
  pose proof (round64_bounds (p / 10)) as Hy; rewrite Rabs_right in Hy by lra.
  pose proof (round64_nonneg (p / 10) ltac:(lra)) as Hy0.
  pose proof (Rpower10_le (round64 (p / 10)) ltac:(lra)) as HR1.
  pose proof (Rpower10_ge (round64 (p / 10)) ltac:(lra)) as HR0.
  assert (HR : Rpower 10 (round64 (p / 10)) <= 1 + / 9007199254740992).
  { eapply Rle_trans; [exact HR1|].
    apply (Rmult_le_reg_l (1 - 4 * round64 (p / 10))); [lra|].
    rewrite Rinv_r by lra. nra. }
  rewrite pow10_no_overflow by lra; f_equal; apply round64_one; lra.
Qed.

(** C5 (amended).  solexa_quality_from_phred: 0 gives exactly -5.0, None
    gives None, a negative score raises the ValueError "PHRED qualities must
    be positive (or zero)".  A positive score is run through the float
    evaluation of max(-5.0, 10*log(10**(phred/10.0) - 1, 10)): for
    0.01 <= phred <= 3070 it returns that value (the argument of log is
    positive); for 0 < phred <= 1e-16, 10**(phred/10.0) rounds to 1.0 and
    log(0.0) raises the ValueError "math domain error"; for phred >= 3100,
    10**(phred/10.0) overflows and raises OverflowError. *)
Theorem solexa_from_phred_cases : forall p : R,
  solexa_quality_from_phred (Some 0) = inr (Some (-5)) /\
  solexa_quality_from_phred None = inr None /\
  (p < 0 -> solexa_quality_from_phred (Some p)
            = inl (ValueError "PHRED qualities must be positive (or zero)")) /\
  (/ 100 <= p <= 3070 ->
   let t := round64 (Rpower 10 (round64 (p / 10))) in
   let u := round64 (t - 1) in
   0 < u /\
   solexa_quality_from_phred (Some p)
   = inr (Some (Rmax (-5) (round64 (10 * round64 (round64 (ln u) / round64 (ln 10))))))) /\
  (0 < p <= / 10000000000000000 ->
   solexa_quality_from_phred (Some p) = inl (ValueError "math domain error")) /\
  (3100 <= p -> solexa_quality_from_phred (Some p) = inl (OverflowError overflow_msg)).
Proof.
  intros p; split; [|split; [|split; [|split; [|split]]]].
  - unfold solexa_quality_from_phred.
    destruct (Rlt_dec 0 0) as [H|_]; [lra|].
    destruct (Req_dec_T 0 0) as [_|H]; [reflexivity | contradiction].
  - reflexivity.
  - intros Hp; unfold solexa_quality_from_phred.
    destruct (Rlt_dec 0 p) as [H|_]; [lra|].
    destruct (Req_dec_T p 0) as [H|_]; [lra | reflexivity].
  - intros Hp t u.
    pose proof (round64_bounds (p / 10)) as Hy; rewrite Rabs_right in Hy by lra.
    pose proof (Rpower10_ge (round64 (p / 10)) ltac:(lra)) as HR.
    pose proof (round64_bounds (Rpower 10 (round64 (p / 10)))) as Ht.
    rewrite Rabs_right in Ht by lra; fold t in Ht.
    assert (Hu : 0 < u) by (apply round64_pos; lra).
    split; [exact Hu|].
    unfold solexa_quality_from_phred.
    destruct (Rlt_dec 0 p) as [_|H]; [|lra].
    rewrite pow10_no_overflow by lra; fold t; fold u.
    rewrite (py_log10_pos u Hu); reflexivity.
  - intros Hp; unfold solexa_quality_from_phred.
    destruct (Rlt_dec 0 p) as [_|H]; [|lra].
    rewrite pow10_tiny by lra.
    replace (1 - 1) with 0 by ring; rewrite round64_0.
    unfold py_log10; destruct (Rle_dec 0 0) as [_|H]; [reflexivity | lra].
  - intros Hp; unfold solexa_quality_from_phred.
    destruct (Rlt_dec 0 p) as [_|H]; [|lra].
    rewrite pow10_overflow by lra; reflexivity.
Qed.

(** C9 (amended).  phred_quality_from_solexa: None gives None; a score below
    -5 issues the warning "Solexa quality less than -5 passed" (and no other
    score does), then the conversion proceeds.  For every score up to 3070,
    including those below -5, it returns the float evaluation of
    10*log(10**(solexa/10.0) + 1, 10) without raising (the argument of log
    is positive); for a score of 3100 or more, 10**(solexa/10.0) overflows
    and raises OverflowError (after no warning). *)
Theorem phred_from_solexa_total : forall s : R,
  phred_quality_from_solexa None = ([], inr None) /\
  (s < -5 -> fst (phred_quality_from_solexa (Some s)) = [solexa_warning]) /\
  (-5 <= s -> fst (phred_quality_from_solexa (Some s)) = []) /\
  (s <= 3070 ->
   let t := round64 (Rpower 10 (round64 (s / 10))) in
   let u := round64 (t + 1) in
   0 < u /\
   snd (phred_quality_from_solexa (Some s))
   = inr (Some (round64 (10 * round64 (round64 (ln u) / round64 (ln 10)))))) /\
  (3100 <= s -> phred_quality_from_solexa (Some s) = ([], inl (OverflowError overflow_msg))).
Proof.
  intros s; split; [reflexivity | split; [|split; [|split]]].
  - intros Hs; unfold phred_quality_from_solexa.
    destruct (Rlt_dec s (-5)) as [_|H]; [|lra].
    destruct (py_pow10 _) as [e|t]; [reflexivity|].
    destruct (py_log10 _); reflexivity.
  - intros Hs; unfold phred_quality_from_solexa.
    destruct (Rlt_dec s (-5)) as [H|_]; [lra|].
    destruct (py_pow10 _) as [e|t]; [reflexivity|].
    destruct (py_log10 _); reflexivity.
  - intros Hs t u.
    assert (Ht : 0 <= t) by (apply round64_nonneg; left; apply Rpower10_pos).
    assert (Hu : 0 < u) by (apply round64_pos; lra).
    split; [exact Hu|].
    unfold phred_quality_from_solexa.
    rewrite pow10_no_overflow by lra; fold t; fold u.
    rewrite (py_log10_pos u Hu); reflexivity.
  - intros Hs; unfold phred_quality_from_solexa.
    destruct (Rlt_dec s (-5)) as [H|_]; [lra|].
    rewrite pow10_overflow by lra; reflexivity.
Qed.

(** C5 (counterexample).  The formula is not returned for every positive
    score: phred = 4000 raises OverflowError, and phred = 1e-17 raises the
    ValueError "math domain error". *)
Lemma solexa_from_phred_overflow :
  solexa_quality_from_phred (Some 4000) = inl (OverflowError overflow_msg) /\
  solexa_quality_from_phred (Some (/ 100000000000000000))
  = inl (ValueError "math domain error") /\
  ~ (forall p, 0 < p -> solexa_quality_from_phred (Some p)
                        = inr (Some (Rmax (-5) (10 * (ln (Rpower 10 (p / 10) - 1) / ln 10))))).
Proof.
  assert (H1 : solexa_quality_from_phred (Some 4000) = inl (OverflowError overflow_msg)).
  { unfold solexa_quality_from_phred.
    destruct (Rlt_dec 0 4000) as [_|H]; [|lra].
    rewrite pow10_overflow by lra; reflexivity. }
  split; [exact H1 | split].
  - unfold solexa_quality_from_phred.
    destruct (Rlt_dec 0 (/ 100000000000000000)) as [_|H]; [|lra].
    rewrite pow10_tiny by lra.
    replace (1 - 1) with 0 by ring; rewrite round64_0.
    unfold py_log10; destruct (Rle_dec 0 0) as [_|H]; [reflexivity | lra].
  - intros H; specialize (H 4000 ltac:(lra)); rewrite H1 in H; discriminate.
Qed.

Lemma solexa_from_phred_cases_witness :
  solexa_quality_from_phred (Some (-1))
  = inl (ValueError "PHRED qualities must be positive (or zero)") /\
  0 < round64 (round64 (Rpower 10 (round64 (30 / 10))) - 1) /\
  solexa_quality_from_phred (Some (/ 100000000000000000))
  = inl (ValueError "math domain error") /\
  solexa_quality_from_phred (Some 4000) = inl (OverflowError overflow_msg).
Proof.
  destruct (solexa_from_phred_cases (-1)) as [_ [_ [H1 _]]].
  destruct (solexa_from_phred_cases 30) as [_ [_ [_ [H2 _]]]].
  destruct (solexa_from_phred_cases (/ 100000000000000000)) as [_ [_ [_ [_ [H3 _]]]]].
  destruct (solexa_from_phred_cases 4000) as [_ [_ [_ [_ [_ H4]]]]].
  split; [apply H1; lra|].
  split; [exact (proj1 (H2 ltac:(lra)))|].
  split; [apply H3; lra | apply H4; lra].
Defined.

(** C9 (counterexample).  The conversion does raise: solexa = 4000 makes
    10**(400.0) overflow. *)
Lemma phred_from_solexa_overflow :
  phred_quality_from_solexa (Some 4000) = ([], inl (OverflowError overflow_msg)) /\
  ~ (forall s, exists v, snd (phred_quality_from_solexa (Some s)) = inr (Some v)).
Proof.
  assert (H1 : phred_quality_from_solexa (Some 4000) = ([], inl (OverflowError overflow_msg))).
  { unfold phred_quality_from_solexa.
    destruct (Rlt_dec 4000 (-5)) as [H|_]; [lra|].
    rewrite pow10_overflow by lra; reflexivity. }
  split; [exact H1|].
  intros H; destruct (H 4000) as [v Hv]; rewrite H1 in Hv; discriminate.
Qed.

Lemma phred_from_solexa_total_witness :
  fst (phred_quality_from_solexa (Some (-6))) = [solexa_warning] /\
  fst (phred_quality_from_solexa (Some 0)) = [] /\
  0 < round64 (round64 (Rpower 10 (round64 (-6 / 10))) + 1) /\
  phred_quality_from_solexa (Some 4000) = ([], inl (OverflowError overflow_msg)).
Proof.
  destruct (phred_from_solexa_total (-6)) as [_ [H1 [_ [H3 _]]]].
  destruct (phred_from_solexa_total 0) as [_ [_ [H2 _]]].
  destruct (phred_from_solexa_total 4000) as [_ [_ [_ [_ H4]]]].
  split; [apply H1; lra|].
  split; [apply H2; lra|].
  split; [exact (proj1 (H3 ltac:(lra))) | apply H4; lra].
Defined.

Local Close Scope R_scope.

(** ** Writing a record and reading it back (Sanger) *)

Lemma append_nil_s : forall s : string, s ++ EmptyString = s.
Proof. induction s as [|c s IH]; simpl; [reflexivity | now rewrite IH]. Qed.

Lemma all_chars_app : forall p a b,
  all_chars p (a ++ b) = all_chars p a && all_chars p b.
Proof.
  induction a as [|c a IH]; intros b; simpl; [reflexivity|].
  rewrite IH, andb_assoc; reflexivity.
Qed.

Lemma not_ws_not_nl : forall s, all_chars not_ws s = true -> all_chars not_nl s = true.
Proof.
  induction s as [|c s IH]; simpl; [reflexivity|].
  intros H; apply andb_prop in H as [Hc Hs]; rewrite (IH Hs), andb_true_r.
  unfold not_nl, not_ws, is_ws in *.
  destruct (Ascii.eqb_spec c (ascii_of_nat 10)) as [->|]; [discriminate | reflexivity].
Qed.

Lemma rstrip_no_ws : forall s, all_chars not_ws s = true -> rstrip s = s.
Proof.
  induction s as [|c s IH]; simpl; [reflexivity|].
  intros H; apply andb_prop in H as [Hc Hs]; rewrite (IH Hs).
  unfold not_ws in Hc; destruct (is_ws c); [discriminate | reflexivity].
Qed.

Lemma lstrip_no_ws : forall s, all_chars not_ws s = true -> lstrip s = s.
Proof.
  intros [|c s]; simpl; [reflexivity|].
  intros H; apply andb_prop in H as [Hc _].
  unfold not_ws in Hc; destruct (is_ws c); [discriminate | reflexivity].
Qed.

Lemma rstrip_app_nl : forall s, rstrip (s ++ nl) = rstrip s.
Proof. induction s as [|c s IH]; simpl; [reflexivity | now rewrite IH]. Qed.

Lemma strip_no_ws_nl : forall s, all_chars not_ws s = true -> strip (s ++ nl) = s.
Proof.
  intros s H; unfold strip; rewrite rstrip_app_nl, (rstrip_no_ws s H).
  apply lstrip_no_ws; exact H.
Qed.

Lemma readlines_line : forall s rest,
  all_chars not_nl s = true -> readlines (s ++ nl ++ rest) = (s ++ nl) :: readlines rest.
Proof.
  induction s as [|c s IH]; intros rest H; [reflexivity|].
  simpl in H; apply andb_prop in H as [Hc Hs].
  change (readlines (String c (s ++ nl ++ rest))
          = String c (s ++ nl) :: readlines rest).
  cbn [readlines]; rewrite (IH rest Hs).
  unfold not_nl in Hc; destruct (Ascii.eqb c (ascii_of_nat 10)); [discriminate | reflexivity].
Qed.

(** Words of [str.split()] *)
Lemma split_aux_word : forall s cur rest,
  all_chars not_ws s = true -> split_aux cur (s ++ rest) = split_aux (cur ++ s) rest.
Proof.
  induction s as [|c s IH]; intros cur rest H; simpl.
  - rewrite append_nil_s; reflexivity.
  - simpl in H; apply andb_prop in H as [Hc Hs].
    unfold not_ws in Hc; destruct (is_ws c); [discriminate|].
    rewrite (IH _ _ Hs), append_assoc_s; reflexivity.
Qed.

Lemma split_aux_nonempty : forall s cur, cur <> EmptyString -> split_aux cur s <> [].
Proof.
  induction s as [|c s IH]; intros cur Hcur; simpl.
  - destruct (String.eqb_spec cur EmptyString); [contradiction | discriminate].
  - destruct (is_ws c).
    + destruct (String.eqb_spec cur EmptyString); [contradiction | discriminate].
    + apply IH; destruct cur; discriminate.
Qed.

Lemma split_aux_has_word : forall s cur,
  all_chars is_ws s = false -> split_aux cur s <> [].
Proof.
  induction s as [|c s IH]; intros cur H; simpl in *; [discriminate|].
  destruct (is_ws c) eqn:Ew; simpl in H.
  - destruct (String.eqb_spec cur EmptyString); [apply IH; exact H | discriminate].
  - apply split_aux_nonempty; destruct cur; discriminate.
Qed.

(** A string without trailing whitespace is empty or has a word. *)
Lemma rstrip_fixed_word : forall d,
  rstrip d = d -> d <> EmptyString -> all_chars is_ws d = false.
Proof.
  induction d as [|c d IH]; intros H Hne; [contradiction|].
  simpl in H |- *.
  destruct (is_ws c) eqn:Ew; [|reflexivity]; simpl in H |- *.
  destruct (String.eqb_spec (rstrip d) EmptyString) as [E|E]; [discriminate|].
  injection H as H; apply IH; [exact H | intros ->; apply E; reflexivity].
Qed.

Lemma length_string_of_list : forall l, String.length (string_of_list_ascii l) = length l.
Proof. induction l as [|c l IH]; simpl; [reflexivity | now rewrite IH]. Qed.

Lemma is_ws_printable : forall c, (33 <= nat_of_ascii c)%nat -> is_ws c = false.
Proof.
  intros c H; unfold is_ws; simpl.
  rewrite !(proj2 (Nat.eqb_neq _ _)) by lia; reflexivity.
Qed.

Lemma encode_sanger : forall zs,
  Forall phred_range zs ->
  encode_qualities SANGER_SCORE_OFFSET (to_scores zs)
  = inr (string_of_list_ascii (map sanger_char zs)).
Proof.
  intros zs H.
  assert (Hm : to_scores zs = map Some (map inject_Z zs))
    by (unfold to_scores; rewrite map_map; reflexivity).
  assert (Hr : Forall (in_chr_range SANGER_SCORE_OFFSET) (map inject_Z zs)).
  { apply Forall_map; eapply Forall_impl; [|exact H].
    intros z Hz; unfold in_chr_range, SANGER_SCORE_OFFSET, phred_range in *.
    rewrite py_round_fl_int by lia; lia. }
  rewrite Hm; unfold encode_qualities; rewrite (encode_each_ok _ _ Hr), map_map.
  f_equal; f_equal; apply map_ext_in; intros z Hz.
  rewrite Forall_forall in H; specialize (H z Hz); unfold phred_range in H.
  unfold score_char, sanger_char, SANGER_SCORE_OFFSET.
  rewrite py_round_fl_int by lia; reflexivity.
Qed.

Lemma sanger_char_code : forall z, phred_range z ->
  Z.of_nat (nat_of_ascii (sanger_char z)) = z + 33.
Proof.
  intros z Hz; unfold sanger_char, phred_range in *.
  rewrite nat_ascii_embedding by lia; apply Z2Nat.id; lia.
Qed.

Lemma decode_sanger : forall zs,
  Forall phred_range zs ->
  decode SANGER_SCORE_OFFSET (string_of_list_ascii (map sanger_char zs)) = zs.
Proof.
  intros zs H; unfold decode; rewrite list_ascii_of_string_of_list_ascii, map_map.
  induction H as [|z zs Hz _ IH]; simpl; [reflexivity|].
  rewrite IH, (sanger_char_code z Hz); unfold SANGER_SCORE_OFFSET; f_equal; ring.
Qed.

Lemma sanger_chars_no_ws : forall zs,
  Forall phred_range zs ->
  all_chars not_ws (string_of_list_ascii (map sanger_char zs)) = true.
Proof.
  intros zs H; induction H as [|z zs Hz _ IH]; simpl; [reflexivity|].
  rewrite IH, andb_true_r; unfold not_ws.
  rewrite is_ws_printable; [reflexivity|].
  pose proof (sanger_char_code z Hz); unfold phred_range in Hz; lia.
Qed.

Lemma run_continue : forall st line st' rest,
  fastq_step st line = Continue st' -> run st (line :: rest) = run st' rest.
Proof. intros st line st' rest H; rewrite run_cons, H; reflexivity. Qed.

Lemma tokenize_written : forall T s Qs,
  all_chars not_nl T = true -> rstrip T = T ->
  all_chars not_ws s = true -> all_chars not_ws Qs = true ->
  String.length s = String.length Qs ->
  FastqGeneralIterator (readlines (fastq_text T s Qs)) = ([(T, s, Qs)], None).
Proof.
  intros T s Qs HT HrT Hs HQ Hlen.
  change (fastq_text T s Qs)
    with (String "@" T ++ nl ++ (s ++ nl ++ ("+" ++ nl ++ (Qs ++ nl ++ EmptyString)))).
  rewrite readlines_line by exact HT.
  rewrite readlines_line by (apply not_ws_not_nl; exact Hs).
  rewrite readlines_line by reflexivity.
  rewrite readlines_line by (apply not_ws_not_nl; exact HQ).
  unfold FastqGeneralIterator.
  assert (E1 : fastq_step Skip (String "@" T ++ nl) = Continue (AfterTitle T)).
  { simpl; rewrite rstrip_app_nl, HrT; reflexivity. }
  assert (E2 : fastq_step (AfterTitle T) (s ++ nl) = Continue (InSeq T s)).
  { simpl; rewrite rstrip_app_nl, (rstrip_no_ws s Hs); reflexivity. }
  assert (E3 : fastq_step (InSeq T s) ("+" ++ nl) = Continue (AfterPlus T s)).
  { reflexivity. }
  assert (E4 : fastq_step (AfterPlus T s) (Qs ++ nl) = Continue (InQual T s Qs)).
  { simpl; rewrite (strip_no_ws_nl Qs HQ); reflexivity. }
  rewrite (run_continue _ _ _ _ E1), (run_continue _ _ _ _ E2),
    (run_continue _ _ _ _ E3), (run_continue _ _ _ _ E4); simpl.
  unfold close; rewrite Hlen, Nat.eqb_refl; reflexivity.
Qed.

Lemma rstrip_app_kept : forall a b,
  rstrip b <> EmptyString -> rstrip (a ++ b) = a ++ rstrip b.
Proof.
  induction a as [|c a IH]; intros b Hb; simpl; [reflexivity|].
  rewrite (IH b Hb).
  destruct (String.eqb_spec (a ++ rstrip b) EmptyString) as [E|E].
  - destruct a; simpl in E; [contradiction | discriminate].
  - rewrite andb_false_r; reflexivity.
Qed.

Lemma py_split_word : forall i, i <> EmptyString -> all_chars not_ws i = true ->
  forall rest, py_split (i ++ rest) = split_aux i rest.
Proof.
  intros i Hi Hw rest; unfold py_split; rewrite (split_aux_word i _ _ Hw); reflexivity.
Qed.

(** The title line the writers build from a plain id and a one-line
    description, and what the reader makes of it. *)
Lemma fastq_title_ok : forall i d,
  i <> EmptyString -> all_chars not_ws i = true ->
  rstrip d = d -> all_chars not_nl d = true ->
  exists T, fastq_title i d = inr T /\ all_chars not_nl T = true /\ rstrip T = T /\
    (exists ws, py_split T = i :: ws) /\
    (forall ws, py_split d = i :: ws -> T = d).
Proof.
  intros i d Hi Hiw Hd Hdn; unfold fastq_title.
  destruct (String.eqb_spec d EmptyString) as [->|Hne].
  - exists i; split; [reflexivity | split; [apply not_ws_not_nl; exact Hiw | split]].
    + apply rstrip_no_ws; exact Hiw.
    + split.
      * exists []; rewrite <- (append_nil_s i) at 1; rewrite (py_split_word i Hi Hiw); simpl.
        destruct (String.eqb_spec i EmptyString); [contradiction | reflexivity].
      * intros ws H; discriminate.
  - assert (Hsplit : py_split d <> []).
    { apply split_aux_has_word, rstrip_fixed_word; assumption. }
    destruct (py_split d) as [|w ws] eqn:Ed; [contradiction|].
    destruct (String.eqb_spec w i) as [->|Hw].
    + exists d; split; [reflexivity | split; [exact Hdn | split; [exact Hd | split]]].
      * exists ws; exact Ed.
      * reflexivity.
    + exists (i ++ " " ++ d); split; [reflexivity | split; [|split; [|split]]].
      * rewrite !all_chars_app, (not_ws_not_nl i Hiw), Hdn; reflexivity.
      * rewrite rstrip_app_kept; [|simpl; rewrite Hd; destruct d; [contradiction|]; discriminate].
        f_equal; simpl; rewrite Hd.
        destruct (String.eqb_spec d EmptyString); [contradiction | reflexivity].
      * exists (split_aux EmptyString d); rewrite (py_split_word i Hi Hiw); simpl.
        destruct (String.eqb_spec i EmptyString); [contradiction | reflexivity].
      * intros ws' H; injection H as H _; contradiction.
Qed.

Lemma phred_range_not_flagged : forall zs,
  Forall phred_range zs -> existsb (fun v => Z.ltb v 0 || Z.ltb 93 v) zs = false.
Proof.
  intros zs H; induction H as [|z zs Hr _ IH]; simpl; [reflexivity|].
  rewrite IH, orb_false_r; unfold phred_range in Hr.
  destruct (Z.ltb_spec z 0), (Z.ltb_spec 93 z); simpl; [lia | lia | lia | reflexivity].
Qed.

(** C7 (counterexample).  A record with id "r1" and description "read one"
    is written with the title line "@r1 read one"; reading it back gives the
    description "r1 read one", so the record does not come back unchanged
    (sequence and scores do). *)
Lemma sanger_roundtrip_counterexample :
  FastqPhredWriter_write_record (fun s => s) (fun q => q) read_one
  = inr ("@r1 read one" ++ nl ++ "ACGT" ++ nl ++ "+" ++ nl ++ "???I" ++ nl) /\
  FastqPhredIterator None
    (readlines ("@r1 read one" ++ nl ++ "ACGT" ++ nl ++ "+" ++ nl ++ "???I" ++ nl))
  = ([{| seq := "ACGT"; id := "r1"; name := "r1"; description := "r1 read one";
         letter_annotations := [("phred_quality", to_scores [30; 30; 30; 40])] |}], None) /\
  fst (FastqPhredIterator None
         (readlines ("@r1 read one" ++ nl ++ "ACGT" ++ nl ++ "+" ++ nl ++ "???I" ++ nl)))
  <> [read_one].
Proof.
  split; [vm_compute; reflexivity | split; [vm_compute; reflexivity|]].
  vm_compute; intros H; inversion H.
Qed.

(** C7 (amended).  A record with integer PHRED scores in [0, 93], one per
    letter of a sequence without whitespace, a non-empty id without
    whitespace and a one-line description without trailing whitespace (both
    left alone by [clean]) is written by the Sanger writer and read back by
    the Sanger reader as one record with the same sequence and scores, whose
    description is the title line written (the description when its first
    word is the id, the id when it is empty, "id description" otherwise) and
    whose id and name are the id.  So the record comes back unchanged when
    its name is its id and its description starts with the id as a word. *)
Theorem sanger_write_read : forall clean conv r zs,
  dict_get "phred_quality" (letter_annotations r) = Some (to_scores zs) ->
  Forall phred_range zs ->
  length zs = String.length (seq r) ->
  all_chars not_ws (seq r) = true ->
  id r <> EmptyString -> all_chars not_ws (id r) = true ->
  rstrip (description r) = description r -> all_chars not_nl (description r) = true ->
  clean (id r) = id r -> clean (description r) = description r ->
  exists T out,
    fastq_title (id r) (description r) = inr T /\
    FastqPhredWriter_write_record clean conv r = inr out /\
    FastqPhredIterator None (readlines out)
    = ([{| seq := seq r; id := id r; name := id r; description := T;
           letter_annotations := [("phred_quality", to_scores zs)] |}], None) /\
    (name r = id r -> letter_annotations r = [("phred_quality", to_scores zs)] ->
     (exists ws, py_split (description r) = id r :: ws) ->
     FastqPhredIterator None (readlines out) = ([r], None)).
Proof.
  intros clean conv r zs Hann Hz Hlen Hseq Hi Hiw Hd Hdn Hci Hcd.
  destruct (fastq_title_ok (id r) (description r) Hi Hiw Hd Hdn)
    as [T [HT [HTn [HTr [[ws Hws] HTd]]]]].
  set (Qs := string_of_list_ascii (map sanger_char zs)).
  assert (HQlen : String.length Qs = String.length (seq r)).
  { unfold Qs; rewrite length_string_of_list, length_map; exact Hlen. }
  assert (Hw : FastqPhredWriter_write_record clean conv r = inr (fastq_text T (seq r) Qs)).
  { unfold FastqPhredWriter_write_record, _get_phred_quality.
    rewrite Hann, (encode_sanger zs Hz); fold Qs.
    rewrite HQlen, Nat.eqb_refl; simpl.
    unfold write_tail; rewrite Hci, Hcd, HT; reflexivity. }
  assert (Hread : FastqPhredIterator None (readlines (fastq_text T (seq r) Qs))
                  = ([{| seq := seq r; id := id r; name := id r; description := T;
                         letter_annotations := [("phred_quality", to_scores zs)] |}], None)).
  { unfold FastqPhredIterator, over_tokens.
    rewrite (tokenize_written T (seq r) Qs HTn HTr Hseq (sanger_chars_no_ws zs Hz)
               (eq_sym HQlen)).
    simpl; unfold title_fields; rewrite Hws.
    unfold Qs; rewrite (decode_sanger zs Hz), phred_out_of_range_spec.
    replace (existsb (fun v => Z.ltb v 0 || Z.ltb 93 v) zs) with false.
    - reflexivity.
    - symmetry; apply phred_range_not_flagged; exact Hz. }
  exists T, (fastq_text T (seq r) Qs); split; [exact HT | split; [exact Hw | split]].
  - exact Hread.
  - intros Hn Hl [ws' Hd']; rewrite Hread, (HTd ws' Hd').
    destruct r as [s i n d a]; simpl in *; subst; reflexivity.
Qed.

Lemma sanger_write_read_witness :
  Forall phred_range [30; 30; 30; 40] /\
  exists T out,
    fastq_title "r1" "r1 read one" = inr T /\
    FastqPhredWriter_write_record (fun s => s) (fun q => q) read_two = inr out /\
    FastqPhredIterator None (readlines out) = ([read_two], None).
Proof.
  assert (Hz : Forall phred_range [30; 30; 30; 40])
    by (repeat (apply Forall_cons; [unfold phred_range; lia|]); apply Forall_nil).
  assert (Hi : id read_two <> EmptyString) by discriminate.
  destruct (sanger_write_read (fun s => s) (fun q => q) read_two [30; 30; 30; 40]
              eq_refl Hz eq_refl eq_refl Hi eq_refl eq_refl eq_refl eq_refl eq_refl)
    as [T [out [H1 [H2 [_ H4]]]]].
  split; [exact Hz|].
  exists T, out; split; [exact H1 | split; [exact H2|]].
  apply H4; [reflexivity | reflexivity | exists ["read"; "one"]; reflexivity].
Defined.


(** * Further properties: QUAL files, the other FASTQ dialects, merging *)

Lemma digits_value_cons : forall c acc r d,
  digit_value c = Some d -> digits_value acc (String c r) = digits_value (10 * acc + d) r.
Proof. intros c acc r d H; simpl; rewrite H; reflexivity. Qed.

Lemma digits_value_acc : forall u p,
  digits_value (Zpos p) (NilEmpty.string_of_uint u) = Some (Zpos (Pos.of_uint_acc u p)).
Proof.
  induction u as [|u IH|u IH|u IH|u IH|u IH|u IH|u IH|u IH|u IH|u IH]; intros p;
    [reflexivity| ..]; cbn [NilEmpty.string_of_uint Pos.of_uint_acc];
    (erewrite digits_value_cons; [|vm_compute; reflexivity]);
    match goal with |- digits_value ?a _ = Some (Zpos (Pos.of_uint_acc _ ?b)) =>
      replace a with (Zpos b) by lia end; apply IH.
Qed.

Lemma digits_value_uint : forall u,
  digits_value 0 (NilEmpty.string_of_uint u) = Some (Z.of_N (Pos.of_uint u)).
Proof.
  induction u as [|u IH|u IH|u IH|u IH|u IH|u IH|u IH|u IH|u IH|u IH];
    [reflexivity| ..]; cbn [NilEmpty.string_of_uint Pos.of_uint];
    (erewrite digits_value_cons; [|vm_compute; reflexivity]); [exact IH| ..];
    apply digits_value_acc.
Qed.

Lemma str_of_Z_pos : forall p, str_of_Z (Zpos p) = NilEmpty.string_of_uint (Pos.to_uint p).
Proof.
  intros p; unfold str_of_Z; simpl.
  pose proof (DecimalPos.Unsigned.to_uint_nonnil p) as H.
  destruct (Pos.to_uint p); [contradiction | reflexivity ..].
Qed.

Lemma str_of_Z_neg : forall p, str_of_Z (Zneg p) = String "-" (NilEmpty.string_of_uint (Pos.to_uint p)).
Proof.
  intros p; unfold str_of_Z; simpl.
  pose proof (DecimalPos.Unsigned.to_uint_nonnil p) as H.
  destruct (Pos.to_uint p); [contradiction | reflexivity ..].
Qed.

Lemma py_int_digits : forall w c r v,
  w = String c r -> Ascii.eqb c "-" = false -> Ascii.eqb c "+" = false ->
  digits_value 0 w = Some v -> py_int w = inr v.
Proof.
  intros w c r v -> Hm Hp Hd; unfold py_int.
  remember (digits_value 0) as dv eqn:Edv; simpl; rewrite Hm, Hp, Hd; f_equal; lia.
Qed.

Lemma py_int_minus : forall c r v,
  digits_value 0 (String c r) = Some v -> py_int (String "-" (String c r)) = inr (- v).
Proof.
  intros c r v Hd; unfold py_int.
  remember (digits_value 0) as dv eqn:Edv; simpl; rewrite Hd; f_equal; lia.
Qed.

Lemma py_int_uint : forall u, u <> Decimal.Nil ->
  py_int (NilEmpty.string_of_uint u) = inr (Z.of_N (Pos.of_uint u)) /\
  py_int (String "-" (NilEmpty.string_of_uint u)) = inr (- Z.of_N (Pos.of_uint u)).
Proof.
  intros u Hu; pose proof (digits_value_uint u) as D.
  destruct u; [contradiction| ..];
    (split; [eapply py_int_digits; [reflexivity | reflexivity | reflexivity | exact D] |
             apply py_int_minus; exact D]).
Qed.

(** [int] parses back every integer written with ["%i"]. *)
Theorem py_int_str_of_Z : forall z, py_int (str_of_Z z) = inr z.
Proof.
  intros [|p|p]; [reflexivity| |].
  - rewrite str_of_Z_pos; rewrite (proj1 (py_int_uint _ (DecimalPos.Unsigned.to_uint_nonnil p))).
    rewrite DecimalPos.Unsigned.of_to; reflexivity.
  - rewrite str_of_Z_neg; rewrite (proj2 (py_int_uint _ (DecimalPos.Unsigned.to_uint_nonnil p))).
    rewrite DecimalPos.Unsigned.of_to; reflexivity.
Qed.

Lemma concat_snoc : forall g s, g <> [] ->
  String.concat " " (app g [s]) = String.concat " " g ++ " " ++ s.
Proof.
  induction g as [|a g IH]; intros s Hg; [contradiction|].
  destruct g as [|b g]; [reflexivity|].
  replace (String.concat " " (app (a :: b :: g) [s]))
    with (a ++ " " ++ String.concat " " (app (b :: g) [s])) by reflexivity.
  rewrite IH by discriminate; simpl; rewrite !append_assoc_s; reflexivity.
Qed.

Lemma length_app_s : forall a b : string,
  String.length (a ++ b) = (String.length a + String.length b)%nat.
Proof. induction a as [|c a IH]; intros b; simpl; [reflexivity | now rewrite IH]. Qed.

(** The lines of the wrapping loop are runs of consecutive numbers. *)
Lemma wrap_lines_groups : forall w rest g,
  g <> [] -> (length g = 1%nat \/ Z.of_nat (String.length (String.concat " " g)) < w) ->
  exists groups,
    wrap_lines w (String.concat " " g) rest = map (String.concat " ") groups /\
    concat groups = app g rest /\
    Forall (fun g => g <> [] /\
      (length g = 1%nat \/ Z.of_nat (String.length (String.concat " " g)) < w)) groups.
Proof.
  induction rest as [|s rest IH]; intros g Hg Hlen; simpl.
  - exists [g]; split; [reflexivity | split; [simpl; rewrite app_nil_r; reflexivity|]].
    constructor; [split; assumption | constructor].
  - destruct (Z.ltb_spec (Z.of_nat (String.length (String.concat " " g)) + 1
                          + Z.of_nat (String.length s)) w) as [Hlt|Hge].
    + destruct (IH (app g [s])) as [groups [E1 [E2 E3]]].
      * destruct g; [contradiction | discriminate].
      * right; rewrite concat_snoc by exact Hg.
        rewrite !length_app_s; simpl; lia.
      * exists groups; split; [rewrite concat_snoc in E1 by exact Hg; exact E1|].
        split; [rewrite E2, <- app_assoc; reflexivity | exact E3].
    + destruct (IH [s]) as [groups [E1 [E2 E3]]]; [discriminate | left; reflexivity|].
      exists (g :: groups); split; [simpl in E1 |- *; rewrite E1; reflexivity|].
      split; [simpl; rewrite E2; reflexivity|].
      constructor; [split; assumption | exact E3].
Qed.

Lemma uint_no_ws : forall u, all_chars not_ws (NilEmpty.string_of_uint u) = true.
Proof. induction u; simpl; try rewrite IHu; reflexivity. Qed.

Lemma qual_word_uint : forall u, u <> Decimal.Nil ->
  qual_word (NilEmpty.string_of_uint u) /\ qual_word (String "-" (NilEmpty.string_of_uint u)).
Proof.
  intros u Hu; pose proof (uint_no_ws u) as W.
  destruct u; [contradiction| ..];
    (split; [split; [discriminate | split; [exact W | reflexivity]]
            |split; [discriminate | split; [simpl in W |- *; exact W | reflexivity]]]).
Qed.

Lemma qual_word_str_of_Z : forall z, qual_word (str_of_Z z).
Proof.
  intros [|p|p].
  - split; [discriminate | split; reflexivity].
  - rewrite str_of_Z_pos; exact (proj1 (qual_word_uint _ (DecimalPos.Unsigned.to_uint_nonnil p))).
  - rewrite str_of_Z_neg; exact (proj2 (qual_word_uint _ (DecimalPos.Unsigned.to_uint_nonnil p))).
Qed.

Lemma py_split_words : forall g, Forall qual_word g ->
  py_split (String.concat " " g ++ nl) = g.
Proof.
  induction 1 as [|w g [Hw [Hws _]] Hg IH]; [reflexivity|].
  destruct g as [|b g].
  - simpl; rewrite (py_split_word w Hw Hws); simpl.
    destruct (String.eqb_spec w EmptyString); [contradiction | reflexivity].
  - replace (String.concat " " (w :: b :: g)) with (w ++ " " ++ String.concat " " (b :: g))
      by reflexivity.
    rewrite !append_assoc_s, (py_split_word w Hw Hws); simpl.
    destruct (String.eqb_spec w EmptyString); [contradiction|].
    f_equal; exact IH.
Qed.

Lemma line_not_title : forall g, Forall qual_word g ->
  starts_with ">" (String.concat " " g ++ nl) = false.
Proof.
  intros [|w g] H; [reflexivity|].
  inversion H as [|? ? [Hw [_ Hs]] _]; subst.
  destruct g as [|b g].
  - destruct w as [|c w]; [contradiction | exact Hs].
  - replace (String.concat " " (w :: b :: g)) with (w ++ " " ++ String.concat " " (b :: g))
      by reflexivity.
    destruct w as [|c w]; [contradiction | exact Hs].
Qed.

Lemma readlines_unlines : forall ls rest,
  Forall (fun l => all_chars not_nl l = true) ls ->
  readlines (unlines ls ++ rest) = app (map (fun l => l ++ nl) ls) (readlines rest).
Proof.
  induction 1 as [|l ls Hl _ IH]; [reflexivity|].
  replace (unlines (l :: ls)) with (l ++ nl ++ unlines ls) by reflexivity.
  rewrite !append_assoc_s, (readlines_line l _ Hl), IH; reflexivity.
Qed.

Lemma py_ints_app : forall a b,
  py_ints (a ++ b)%list =
  match py_ints a with
  | inl e => inl e
  | inr za => match py_ints b with inl e => inl e | inr zb => inr (za ++ zb)%list end
  end.
Proof.
  induction a as [|w a IH]; intros b; simpl.
  - destruct (py_ints b); reflexivity.
  - destruct (py_int w); [reflexivity|]; rewrite IH.
    destruct (py_ints a); [reflexivity|]; destruct (py_ints b); reflexivity.
Qed.

Lemma qual_run_lines : forall letter title2ids groups f q rest zs,
  Forall (Forall qual_word) groups ->
  py_ints (concat groups) = inr zs ->
  qual_run letter title2ids (QRecord f q)
    (app (map (fun g => String.concat " " g ++ nl) groups) rest)
  = qual_run letter title2ids (QRecord f (q ++ zs)%list) rest.
Proof.
  intros letter title2ids groups; induction groups as [|g groups IH]; intros f q rest zs H Hz.
  - simpl in Hz; injection Hz as <-; rewrite app_nil_r; reflexivity.
  - inversion H as [|? ? Hg Hgs]; subst.
    simpl in Hz; rewrite py_ints_app in Hz.
    destruct (py_ints g) as [e|za] eqn:Eg; [discriminate|].
    destruct (py_ints (concat groups)) as [e|zb] eqn:Egs; [discriminate|].
    injection Hz as <-.
    simpl; rewrite (line_not_title g Hg), (py_split_words g Hg), Eg.
    rewrite (IH f (q ++ za)%list rest zb Hgs eq_refl), app_assoc.
    destruct (qual_run letter title2ids (QRecord f ((q ++ za) ++ zb)%list) rest); reflexivity.
Qed.

Lemma py_round_Z : forall z, py_round (inject_Z z) = z.
Proof.
  intros z; unfold py_round, Qfloor, inject_Z, Qplus; simpl.
  destruct (Qle_bool _ _).
  - symmetry; apply (Z.div_unique _ _ _ 1); [left; lia | ring].
  - rewrite <- (Z.div_unique _ _ (- z) 1); [ring | left; lia | ring].
Qed.

Lemma qualities_strs_Z : forall zs,
  qualities_strs (to_scores zs) = inr (map str_of_Z zs).
Proof.
  intros zs; unfold qualities_strs.
  assert (H : qual_strs (to_scores zs) = inr (map str_of_Z zs)).
  { induction zs as [|z zs IH]; [reflexivity|]; simpl; rewrite IH, py_round_Z; reflexivity. }
  rewrite H; reflexivity.
Qed.

Lemma py_ints_str_of_Z : forall zs, py_ints (map str_of_Z zs) = inr zs.
Proof.
  induction zs as [|z zs IH]; [reflexivity|]; simpl; rewrite py_int_str_of_Z, IH; reflexivity.
Qed.

Lemma Forall_concat_inv : forall {A} (P : A -> Prop) (ls : list (list A)),
  Forall P (concat ls) -> Forall (Forall P) ls.
Proof.
  intros A P ls H; apply Forall_forall; intros l Hl; apply Forall_forall; intros x Hx.
  rewrite Forall_forall in H; apply H, in_concat; exists l; split; assumption.
Qed.

Lemma qual_body_groups : forall wrap strs,
  exists groups,
    qual_body wrap strs = unlines (map (String.concat " ") groups) /\ concat groups = strs.
Proof.
  intros wrap strs.
  assert (Hone : String.concat " " strs ++ nl = unlines (map (String.concat " ") [strs])).
  { replace (unlines (map (String.concat " ") [strs]))
      with (String.concat " " strs ++ (nl ++ EmptyString)) by reflexivity.
    reflexivity. }
  destruct wrap as [w|]; simpl.
  - destruct (Z.eqb w 0).
    + exists [strs]; split; [exact Hone | simpl; apply app_nil_r].
    + destruct strs as [|s rest]; [exists []; split; reflexivity|].
      destruct (wrap_lines_groups w rest [s]) as [groups [E1 [E2 _]]];
        [discriminate | left; reflexivity|].
      exists groups; split; [simpl in E1; rewrite E1; reflexivity | exact E2].
  - exists [strs]; split; [exact Hone | simpl; apply app_nil_r].
Qed.

Lemma all_chars_concat : forall p g,
  p " "%char = true -> Forall (fun w => all_chars p w = true) g ->
  all_chars p (String.concat " " g) = true.
Proof.
  intros p g Hsp; induction 1 as [|w g Hw _ IH]; [reflexivity|].
  destruct g as [|b g]; [exact Hw|].
  replace (String.concat " " (w :: b :: g)) with (w ++ " " ++ String.concat " " (b :: g))
    by reflexivity.
  rewrite !all_chars_app, Hw, IH; simpl; rewrite Hsp; reflexivity.
Qed.

Lemma has_char_app : forall c a b, has_char c (a ++ b) = has_char c a || has_char c b.
Proof.
  intros c a b; unfold has_char; induction a as [|x a IH]; simpl; [reflexivity|].
  rewrite IH, orb_assoc; reflexivity.
Qed.

Lemma has_char_all : forall c p s,
  p c = false -> all_chars p s = true -> has_char c s = false.
Proof.
  intros c p s Hc; unfold has_char; induction s as [|x s IH]; simpl; [reflexivity|].
  intros H; apply andb_prop in H as [Hx Hs]; rewrite (IH Hs), orb_false_r.
  destruct (Ascii.eqb_spec c x) as [->|]; [congruence | reflexivity].
Qed.

Lemma fastq_title_shape : forall i d T,
  fastq_title i d = inr T -> T = i \/ T = d \/ T = i ++ " " ++ d.
Proof.
  intros i d T; unfold fastq_title.
  destruct (String.eqb d EmptyString); [intros H; injection H; auto|].
  destruct (py_split d) as [|w ws]; [discriminate|].
  destruct (String.eqb w i); intros H; injection H; auto.
Qed.

Lemma qual_close_range : forall letter f zs,
  Forall phred_range zs ->
  qual_close letter f zs =
  inr {| seq := unknown_seq letter (length zs); id := fst (fst f); name := snd (fst f);
         description := snd f; letter_annotations := [("phred_quality", to_scores zs)] |}.
Proof.
  intros letter [[i n] d] zs H; unfold qual_close; simpl.
  destruct zs as [|x xs]; [reflexivity|].
  change (Z.ltb (py_min x xs) 0 || Z.ltb 93 (py_max x xs)) with (phred_out_of_range (x :: xs)).
  rewrite phred_out_of_range_spec, (phred_range_not_flagged _ H); reflexivity.
Qed.

(** A record with PHRED scores in [0, 93] and a plain title, written by
    [QualPhredWriter] with any [wrap] and read back by [QualPhredIterator],
    gives one record with the same id, title and scores. *)
Theorem qual_write_read : forall clean conv wrap letter r zs,
  dict_get "phred_quality" (letter_annotations r) = Some (to_scores zs) ->
  Forall phred_range zs ->
  id r <> EmptyString -> all_chars not_ws (id r) = true ->
  rstrip (description r) = description r -> all_chars not_nl (description r) = true ->
  has_char (ascii_of_nat 13) (description r) = false ->
  clean (id r) = id r -> clean (description r) = description r ->
  exists T out,
    fastq_title (id r) (description r) = inr T /\
    QualPhredWriter_write_record clean conv None wrap r = (out, None) /\
    QualPhredIterator letter None (readlines out)
    = ([{| seq := unknown_seq letter (length zs); id := id r; name := id r; description := T;
           letter_annotations := [("phred_quality", to_scores zs)] |}], None).
Proof.
  intros clean conv wrap letter r zs Hann Hz Hi Hiw Hd Hdn Hdr Hci Hcd.
  destruct (fastq_title_ok (id r) (description r) Hi Hiw Hd Hdn)
    as [T [HT [HTn [HTr [[ws Hws] _]]]]].
  assert (HTlf : has_char (ascii_of_nat 10) T = false)
    by (apply (has_char_all _ not_nl); [reflexivity | exact HTn]).
  assert (Hicr : has_char (ascii_of_nat 13) (id r) = false)
    by (apply (has_char_all _ not_ws); [reflexivity | exact Hiw]).
  assert (HTcr : has_char (ascii_of_nat 13) T = false).
  { destruct (fastq_title_shape _ _ _ HT) as [-> | [-> | ->]]; [exact Hicr | exact Hdr|].
    rewrite !has_char_app, Hicr, Hdr; reflexivity. }
  destruct (qual_body_groups wrap (map str_of_Z zs)) as [groups [Hb Hg]].
  assert (Hwords : Forall (Forall qual_word) groups).
  { apply Forall_concat_inv; rewrite Hg; apply Forall_map, Forall_forall.
    intros z _; apply qual_word_str_of_Z. }
  set (L := map (String.concat " ") groups).
  assert (HL : Forall (fun l => all_chars not_nl l = true) L).
  { unfold L; apply Forall_map; eapply Forall_impl; [|exact Hwords].
    intros g Hg'; apply all_chars_concat; [reflexivity|].
    eapply Forall_impl; [|exact Hg']; intros w [_ [Hw _]]; apply not_ws_not_nl; exact Hw. }
  exists T, (">" ++ T ++ nl ++ unlines L); split; [exact HT | split].
  - unfold QualPhredWriter_write_record, qual_title_of.
    rewrite Hci, Hcd, HT, HTlf, HTcr; simpl.
    unfold _get_phred_quality; rewrite Hann, qualities_strs_Z, Hb, append_assoc_s; reflexivity.
  - replace (">" ++ T ++ nl ++ unlines L) with (String ">" T ++ nl ++ (unlines L ++ EmptyString))
      by (rewrite append_nil_s; reflexivity).
    rewrite readlines_line by exact HTn.
    rewrite (readlines_unlines L EmptyString HL); simpl readlines.
    unfold QualPhredIterator; simpl.
    unfold qual_title; simpl tail1; rewrite rstrip_app_nl, HTr.
    unfold title_fields; rewrite Hws.
    unfold L; rewrite map_map.
    rewrite (qual_run_lines letter None groups (id r, id r, T) [] [] zs Hwords)
      by (rewrite Hg; apply py_ints_str_of_Z).
    cbn [qual_run qual_eof app]; rewrite (qual_close_range letter _ zs Hz); reflexivity.
Qed.

Lemma encode_Z : forall offset zs,
  Forall (fun z => 0 <= z + offset < 256) zs ->
  encode_qualities offset (to_scores zs)
  = inr (string_of_list_ascii (map (offset_char offset) zs)).
Proof.
  intros offset zs H.
  assert (Hm : to_scores zs = map Some (map inject_Z zs))
    by (unfold to_scores; rewrite map_map; reflexivity).
  assert (Hr : Forall (in_chr_range offset) (map inject_Z zs)).
  { apply Forall_map; eapply Forall_impl; [|exact H].
    intros z Hz; cbv beta in Hz; unfold in_chr_range; rewrite py_round_fl_int by lia; exact Hz. }
  rewrite Hm; unfold encode_qualities; rewrite (encode_each_ok _ _ Hr), map_map.
  f_equal; f_equal; apply map_ext_in; intros z Hz.
  rewrite Forall_forall in H; specialize (H z Hz).
  unfold score_char, offset_char.
  rewrite py_round_fl_int by lia; reflexivity.
Qed.

Lemma decode_Z : forall offset zs,
  Forall (fun z => 0 <= z + offset < 256) zs ->
  decode offset (string_of_list_ascii (map (offset_char offset) zs)) = zs.
Proof.
  intros offset zs H; unfold decode; rewrite list_ascii_of_string_of_list_ascii, map_map.
  induction H as [|z zs Hz _ IH]; simpl; [reflexivity|].
  rewrite IH; unfold offset_char; rewrite nat_ascii_embedding by lia.
  rewrite Z2Nat.id by lia; f_equal; ring.
Qed.

Lemma offset_chars_no_ws : forall offset zs,
  Forall (fun z => 33 <= z + offset < 256) zs ->
  all_chars not_ws (string_of_list_ascii (map (offset_char offset) zs)) = true.
Proof.
  intros offset zs H; induction H as [|z zs Hz _ IH]; simpl; [reflexivity|].
  rewrite IH, andb_true_r; unfold not_ws.
  rewrite is_ws_printable; [reflexivity|].
  unfold offset_char; rewrite nat_ascii_embedding by lia; lia.
Qed.

Lemma no_scores_below : forall zs,
  Forall (fun z => -5 <= z) zs -> existsb (fun v => Z.ltb v (-5)) zs = false.
Proof.
  intros zs H; induction H as [|z zs Hz _ IH]; simpl; [reflexivity|].
  rewrite IH, orb_false_r; apply Z.ltb_ge; exact Hz.
Qed.

(** Illumina 1.3+ FASTQ: writing then reading gives the record back. *)
Theorem illumina_write_read : forall clean conv r zs,
  dict_get "phred_quality" (letter_annotations r) = Some (to_scores zs) ->
  Forall phred_range zs ->
  length zs = String.length (seq r) ->
  all_chars not_ws (seq r) = true ->
  id r <> EmptyString -> all_chars not_ws (id r) = true ->
  rstrip (description r) = description r -> all_chars not_nl (description r) = true ->
  clean (id r) = id r -> clean (description r) = description r ->
  exists T out,
    fastq_title (id r) (description r) = inr T /\
    FastqIlluminaWriter_write_record clean conv r = inr out /\
    FastqIlluminaIterator None (readlines out)
    = ([{| seq := seq r; id := id r; name := id r; description := T;
           letter_annotations := [("phred_quality", to_scores zs)] |}], None).
Proof.
  intros clean conv r zs Hann Hz Hlen Hseq Hi Hiw Hd Hdn Hci Hcd.
  destruct (fastq_title_ok (id r) (description r) Hi Hiw Hd Hdn)
    as [T [HT [HTn [HTr [[ws Hws] _]]]]].
  assert (Hr : Forall (fun z => 33 <= z + SOLEXA_SCORE_OFFSET < 256) zs).
  { eapply Forall_impl; [|exact Hz]; intros z Hz'; unfold phred_range, SOLEXA_SCORE_OFFSET in *; lia. }
  assert (Hr' : Forall (fun z => 0 <= z + SOLEXA_SCORE_OFFSET < 256) zs).
  { eapply Forall_impl; [|exact Hr]; intros z Hz'; cbv beta in Hz'; lia. }
  set (Qs := string_of_list_ascii (map (offset_char SOLEXA_SCORE_OFFSET) zs)).
  assert (HQlen : String.length Qs = String.length (seq r)).
  { unfold Qs; rewrite length_string_of_list, length_map; exact Hlen. }
  exists T, (fastq_text T (seq r) Qs); split; [exact HT | split].
  - unfold FastqIlluminaWriter_write_record, _get_phred_quality.
    rewrite Hann, (encode_Z _ _ Hr'); fold Qs.
    unfold to_scores; rewrite length_map, Hlen, Nat.eqb_refl; simpl.
    unfold write_tail; rewrite Hci, Hcd, HT; reflexivity.
  - unfold FastqIlluminaIterator, over_tokens.
    rewrite (tokenize_written T (seq r) Qs HTn HTr Hseq (offset_chars_no_ws _ _ Hr)
               (eq_sym HQlen)).
    simpl; unfold title_fields; rewrite Hws.
    unfold Qs; rewrite (decode_Z _ _ Hr'), phred_out_of_range_spec.
    rewrite (phred_range_not_flagged zs Hz); reflexivity.
Qed.

(** Solexa FASTQ: writing Solexa scores in [-5, 191] then reading gives
    the record back. *)
Theorem solexa_write_read : forall clean conv r zs,
  dict_get "solexa_quality" (letter_annotations r) = Some (to_scores zs) ->
  Forall (fun z => -5 <= z <= 191) zs ->
  length zs = String.length (seq r) ->
  all_chars not_ws (seq r) = true ->
  id r <> EmptyString -> all_chars not_ws (id r) = true ->
  rstrip (description r) = description r -> all_chars not_nl (description r) = true ->
  clean (id r) = id r -> clean (description r) = description r ->
  exists T out,
    fastq_title (id r) (description r) = inr T /\
    FastqSolexaWriter_write_record clean conv r = inr out /\
    FastqSolexaIterator None (readlines out)
    = ([{| seq := seq r; id := id r; name := id r; description := T;
           letter_annotations := [("solexa_quality", to_scores zs)] |}], None).
Proof.
  intros clean conv r zs Hann Hz Hlen Hseq Hi Hiw Hd Hdn Hci Hcd.
  destruct (fastq_title_ok (id r) (description r) Hi Hiw Hd Hdn)
    as [T [HT [HTn [HTr [[ws Hws] _]]]]].
  assert (Hr : Forall (fun z => 33 <= z + SOLEXA_SCORE_OFFSET < 256) zs).
  { eapply Forall_impl; [|exact Hz]; intros z Hz'; cbv beta in Hz'; unfold SOLEXA_SCORE_OFFSET; lia. }
  assert (Hr' : Forall (fun z => 0 <= z + SOLEXA_SCORE_OFFSET < 256) zs).
  { eapply Forall_impl; [|exact Hr]; intros z Hz'; cbv beta in Hz'; lia. }
  set (Qs := string_of_list_ascii (map (offset_char SOLEXA_SCORE_OFFSET) zs)).
  assert (HQlen : String.length Qs = String.length (seq r)).
  { unfold Qs; rewrite length_string_of_list, length_map; exact Hlen. }
  exists T, (fastq_text T (seq r) Qs); split; [exact HT | split].
  - unfold FastqSolexaWriter_write_record, _get_solexa_quality.
    rewrite Hann, (encode_Z _ _ Hr'); fold Qs.
    unfold to_scores; rewrite length_map, Hlen, Nat.eqb_refl; simpl.
    unfold write_tail; rewrite Hci, Hcd, HT; reflexivity.
  - unfold FastqSolexaIterator, over_tokens.
    rewrite (tokenize_written T (seq r) Qs HTn HTr Hseq (offset_chars_no_ws _ _ Hr)
               (eq_sym HQlen)).
    simpl; unfold solexa_title_fields; rewrite Hws.
    unfold Qs; rewrite (decode_Z _ _ Hr').
    destruct zs as [|x xs]; [reflexivity|].
    rewrite solexa_min_spec, no_scores_below; [reflexivity|].
    eapply Forall_impl; [|exact Hz]; intros z Hz'; cbv beta in Hz'; lia.
Qed.

Lemma readlines_record : forall T s Q rest,
  all_chars not_nl T = true -> all_chars not_ws s = true -> all_chars not_ws Q = true ->
  readlines (fastq_text T s Q ++ rest)
  = (String "@" T ++ nl) :: (s ++ nl) :: ("+" ++ nl) :: (Q ++ nl) :: readlines rest.
Proof.
  intros T s Q rest HT Hs HQ.
  replace (fastq_text T s Q ++ rest)
    with (String "@" T ++ nl ++ (s ++ nl ++ ("+" ++ nl ++ (Q ++ nl ++ rest))))
    by (unfold fastq_text; rewrite !append_assoc_s; reflexivity).
  rewrite readlines_line by exact HT.
  rewrite readlines_line by (apply not_ws_not_nl; exact Hs).
  rewrite readlines_line by reflexivity.
  rewrite readlines_line by (apply not_ws_not_nl; exact HQ).
  reflexivity.
Qed.

Lemma readlines_file_cons : forall T s Q recs,
  all_chars not_nl T = true -> all_chars not_ws s = true -> all_chars not_ws Q = true ->
  readlines (fastq_file (@cons raw_record (T, s, Q) recs))
  = (String "@" T ++ nl) :: (s ++ nl) :: ("+" ++ nl) :: (Q ++ nl) :: readlines (fastq_file recs).
Proof. intros T s Q recs HT Hs HQ; exact (readlines_record T s Q _ HT Hs HQ). Qed.

Lemma run_record_body : forall T s Q rest,
  all_chars not_ws s = true -> all_chars not_ws Q = true ->
  run (AfterTitle T) ((s ++ nl) :: ("+" ++ nl) :: (Q ++ nl) :: rest) = run (InQual T s Q) rest.
Proof.
  intros T s Q rest Hs HQ.
  assert (E2 : fastq_step (AfterTitle T) (s ++ nl) = Continue (InSeq T s)).
  { simpl; rewrite rstrip_app_nl, (rstrip_no_ws s Hs); reflexivity. }
  assert (E3 : fastq_step (InSeq T s) ("+" ++ nl) = Continue (AfterPlus T s)) by reflexivity.
  assert (E4 : fastq_step (AfterPlus T s) (Q ++ nl) = Continue (InQual T s Q)).
  { simpl; rewrite (strip_no_ws_nl Q HQ); reflexivity. }
  rewrite (run_continue _ _ _ _ E2), (run_continue _ _ _ _ E3), (run_continue _ _ _ _ E4).
  reflexivity.
Qed.

Lemma run_after_title : forall recs T s Q,
  layout_ok (T, s, Q) -> Forall layout_ok recs ->
  run (AfterTitle T) ((s ++ nl) :: ("+" ++ nl) :: (Q ++ nl) :: readlines (fastq_file recs))
  = ((T, s, Q) :: recs, None).
Proof.
  induction recs as [|[[T' s'] Q'] recs IH]; intros T s Q [HT [HTr [Hs [HQ Hlen]]]] Hrecs;
    rewrite (run_record_body T s Q _ Hs HQ).
  - simpl; unfold close; rewrite Hlen, Nat.eqb_refl; reflexivity.
  - inversion Hrecs as [|? ? Hr' Hrecs']; subst.
    destruct Hr' as [HT' [HTr' [Hs' [HQ' Hlen']]]].
    rewrite (readlines_file_cons T' s' Q' recs HT' Hs' HQ').
    rewrite run_cons; simpl fastq_step.
    rewrite Hlen, Nat.leb_refl; simpl andb; cbv iota.
    unfold close; rewrite Hlen, Nat.eqb_refl.
    rewrite rstrip_app_nl, HTr'.
    rewrite (IH T' s' Q' (conj HT' (conj HTr' (conj Hs' (conj HQ' Hlen')))) Hrecs').
    reflexivity.
Qed.

(** [FastqGeneralIterator] splits a file of four-line records into
    exactly those records. *)
Theorem fastq_tokenize_file : forall recs,
  Forall layout_ok recs -> FastqGeneralIterator (readlines (fastq_file recs)) = (recs, None).
Proof.
  intros [|[[T s] Q] recs] H; [reflexivity|].
  inversion H as [|? ? Hr Hrecs]; subst.
  pose proof Hr as [HT [HTr [Hs [HQ _]]]].
  rewrite (readlines_file_cons T s Q recs HT Hs HQ).
  unfold FastqGeneralIterator; rewrite run_cons; simpl fastq_step.
  rewrite rstrip_app_nl, HTr.
  exact (run_after_title recs T s Q Hr Hrecs).
Qed.

(** Lines before the first '@' line are skipped; input without one
    yields nothing. *)
Theorem fastq_skips_leading_lines : forall junk lines,
  Forall (fun l => starts_with "@" l = false) junk ->
  FastqGeneralIterator (junk ++ lines)%list = FastqGeneralIterator lines /\
  FastqGeneralIterator junk = ([], None).
Proof.
  intros junk lines H; unfold FastqGeneralIterator.
  induction H as [|l junk Hl _ [IH1 IH2]]; [split; reflexivity|].
  simpl; rewrite Hl; split; assumption.
Qed.

(** A '+' line ends the sequence when its caption is empty or repeats the
    title, and raises the caption error otherwise. *)
Theorem plus_line_caption : forall title s line rest,
  starts_with "+" line = true ->
  ((rstrip (tail1 line) = EmptyString \/ rstrip (tail1 line) = title) ->
     run (InSeq title s) (line :: rest) = run (AfterPlus title s) rest) /\
  (rstrip (tail1 line) <> EmptyString -> rstrip (tail1 line) <> title ->
     run (InSeq title s) (line :: rest) = ([], Some (ValueError caption_msg))).
Proof.
  intros title s line rest Hp; split.
  - intros Hc; rewrite run_cons; simpl; rewrite Hp.
    destruct Hc as [-> | ->]; [reflexivity|].
    rewrite String.eqb_refl, andb_false_r; reflexivity.
  - intros H1 H2; rewrite run_cons; simpl; rewrite Hp.
    apply String.eqb_neq in H1; apply String.eqb_neq in H2; rewrite H1, H2; reflexivity.
Qed.

Lemma each_ok : forall f pre recs e,
  map f pre = map inr recs -> each f pre e = (recs, e).
Proof.
  induction pre as [|r pre IH]; intros [|rec recs] e H; simpl in H; try discriminate;
    [reflexivity|].
  injection H as H1 H2; simpl; rewrite H1, (IH recs e H2); reflexivity.
Qed.

Lemma each_fail : forall f pre bad post recs err e,
  map f pre = map inr recs -> f bad = inl err ->
  each f (pre ++ bad :: post)%list e = (recs, Some err).
Proof.
  induction pre as [|r pre IH]; intros bad post [|rec recs] err e H Hb; simpl in H;
    try discriminate.
  - simpl; rewrite Hb; reflexivity.
  - injection H as H1 H2; simpl; rewrite H1, (IH bad post recs err e H2 Hb); reflexivity.
Qed.

(** A reader yields the records before the first one it cannot decode,
    then raises that record's error. *)
Theorem readers_stop_at_first_error : forall f lines pre bad post e recs err,
  FastqGeneralIterator lines = ((pre ++ bad :: post)%list, e) ->
  map f pre = map inr recs -> f bad = inl err ->
  over_tokens f lines = (recs, Some err).
Proof.
  intros f lines pre bad post e recs err Ht Hpre Hbad; unfold over_tokens; rewrite Ht.
  apply each_fail; assumption.
Qed.

Theorem readers_yield_all : forall f lines rs e recs,
  FastqGeneralIterator lines = (rs, e) -> map f rs = map inr recs ->
  over_tokens f lines = (recs, e).
Proof.
  intros f lines rs e recs Ht Hrs; unfold over_tokens; rewrite Ht; apply each_ok; exact Hrs.
Qed.

(** Without PHRED or Solexa scores every FASTQ writer raises the
    missing-scores error. *)
Theorem writers_no_scores : forall clean phred_conv solexa_conv r,
  dict_get "phred_quality" (letter_annotations r) = None ->
  dict_get "solexa_quality" (letter_annotations r) = None ->
  FastqPhredWriter_write_record clean phred_conv r = inl (ValueError (unknown_scores_msg (id r))) /\
  FastqSolexaWriter_write_record clean solexa_conv r = inl (ValueError (unknown_scores_msg (id r))) /\
  FastqIlluminaWriter_write_record clean phred_conv r = inl (ValueError (unknown_scores_msg (id r))).
Proof.
  intros clean pc sc r Hp Hs.
  unfold FastqPhredWriter_write_record, FastqSolexaWriter_write_record,
    FastqIlluminaWriter_write_record, _get_phred_quality, _get_solexa_quality.
  rewrite Hp, Hs; repeat split.
Qed.

(** The Sanger and Illumina writers raise the length error when the number
    of scores differs from the sequence length. *)
Theorem writers_length_mismatch : forall clean conv r zs,
  dict_get "phred_quality" (letter_annotations r) = Some (to_scores zs) ->
  Forall phred_range zs -> length zs <> String.length (seq r) ->
  FastqPhredWriter_write_record clean conv r
  = inl (ValueError (record_length_msg (id r) (String.length (seq r)) (length zs))) /\
  FastqIlluminaWriter_write_record clean conv r
  = inl (ValueError (record_length_msg (id r) (String.length (seq r)) (length zs))).
Proof.
  intros clean conv r zs Hann Hz Hlen.
  assert (Hr : forall o, 0 <= o <= 162 -> Forall (fun z => 0 <= z + o < 256) zs).
  { intros o Ho; eapply Forall_impl; [|exact Hz]; intros z Hz'; unfold phred_range in Hz'; lia. }
  split.
  - unfold FastqPhredWriter_write_record, _get_phred_quality.
    rewrite Hann, (encode_Z _ _ (Hr SANGER_SCORE_OFFSET ltac:(unfold SANGER_SCORE_OFFSET; lia))).
    rewrite length_string_of_list, length_map.
    rewrite (proj2 (Nat.eqb_neq _ _) Hlen); reflexivity.
  - unfold FastqIlluminaWriter_write_record, _get_phred_quality.
    rewrite Hann, (encode_Z _ _ (Hr SOLEXA_SCORE_OFFSET ltac:(unfold SOLEXA_SCORE_OFFSET; lia))).
    unfold to_scores; rewrite length_map.
    rewrite (proj2 (Nat.eqb_neq _ _) Hlen); reflexivity.
Qed.

Lemma dict_get_set_same : forall {V} k (v : V) d, dict_get k (dict_set k v d) = Some v.
Proof.
  intros V k v d; induction d as [|[k' v'] d IH]; simpl.
  - rewrite String.eqb_refl; reflexivity.
  - destruct (String.eqb k k') eqn:E; simpl; rewrite ?String.eqb_refl, ?E; [reflexivity|exact IH].
Qed.

Lemma dict_get_set_other : forall {V} k k2 (v : V) d, k2 <> k ->
  dict_get k2 (dict_set k v d) = dict_get k2 d.
Proof.
  intros V k k2 v d Hk; induction d as [|[k' v'] d IH]; simpl.
  - apply String.eqb_neq in Hk; rewrite Hk; reflexivity.
  - destruct (String.eqb k k') eqn:E; simpl.
    + apply String.eqb_eq in E; subst k'.
      apply String.eqb_neq in Hk; rewrite Hk; reflexivity.
    + destruct (String.eqb k2 k'); [reflexivity | exact IH].
Qed.

(** Matching FASTA and QUAL streams are merged completely: each record
    keeps the FASTA fields and annotations and takes the QUAL scores. *)
Theorem paired_merges : forall fs qs,
  Forall2 (fun f q => id f = id q /\ exists quals,
             dict_get "phred_quality" (letter_annotations q) = Some quals /\
             String.length (seq f) = length quals) fs qs ->
  exists out, PairedFastaQualIterator fs qs = (out, None) /\
  Forall2 (fun o fq =>
    seq o = seq (fst fq) /\ id o = id (fst fq) /\ name o = name (fst fq) /\
    description o = description (fst fq) /\
    dict_get "phred_quality" (letter_annotations o)
    = dict_get "phred_quality" (letter_annotations (snd fq)) /\
    (forall k, k <> "phred_quality" ->
       dict_get k (letter_annotations o) = dict_get k (letter_annotations (fst fq))))
    out (combine fs qs).
Proof.
  intros fs qs H; induction H as [|f q fs qs [Hid [quals [Hq Hl]]] _ [out [Hout Hall]]].
  - exists []; split; [reflexivity | constructor].
  - simpl; rewrite Hid, String.eqb_refl, Hq, Hl, Nat.eqb_refl; simpl; rewrite Hout.
    eexists; split; [reflexivity|]; constructor; [|exact Hall]; simpl.
    repeat split; [symmetry; exact Hid | rewrite dict_get_set_same; symmetry; exact Hq |].
    intros k Hk; apply dict_get_set_other; exact Hk.
Qed.

(** A merge ending without error had as many QUAL as FASTA records and
    yielded one record per pair. *)
Theorem paired_no_error_counts : forall fs qs out,
  PairedFastaQualIterator fs qs = (out, None) ->
  length out = length fs /\ length qs = length fs.
Proof.
  induction fs as [|f fs IH]; intros [|q qs] out H; simpl in H; try discriminate.
  - injection H as <-; split; reflexivity.
  - destruct (negb (String.eqb (id f) (id q))); [discriminate|].
    destruct (dict_get "phred_quality" (letter_annotations q)) as [quals|]; [|discriminate].
    destruct (negb (Nat.eqb (String.length (seq f)) (length quals))); [discriminate|].
    destruct (PairedFastaQualIterator fs qs) as [o e] eqn:E.
    injection H as <- ->; destruct (IH qs o E) as [H1 H2]; simpl; split; congruence.
Qed.

Lemma qual_run_skip : forall letter t2i l rest,
  starts_with ">" l = false ->
  qual_run letter t2i QSkip (l :: rest) = qual_run letter t2i QSkip rest.
Proof.
  intros letter t2i l rest Hl; simpl; rewrite Hl.
  destruct (qual_run letter t2i QSkip rest); reflexivity.
Qed.

(** [QualPhredIterator] skips lines before the first '>' line. *)
Theorem qual_skips_leading_lines : forall letter t2i junk lines,
  Forall (fun l => starts_with ">" l = false) junk ->
  QualPhredIterator letter t2i (junk ++ lines)%list = QualPhredIterator letter t2i lines /\
  QualPhredIterator letter t2i junk = ([], None).
Proof.
  intros letter t2i junk lines H; unfold QualPhredIterator.
  induction H as [|l junk Hl _ [IH1 IH2]]; [split; reflexivity|].
  simpl app; rewrite !qual_run_skip by exact Hl; split; assumption.
Qed.

(** Wrapping keeps all scores in order and every written line is one score
    or shorter than [wrap]. *)
Theorem qual_wrap_lines : forall w s rest,
  exists groups,
    wrap_lines w s rest = map (String.concat " ") groups /\
    concat groups = s :: rest /\
    Forall (fun g => g <> [] /\
      (length g = 1%nat \/ Z.of_nat (String.length (String.concat " " g)) < w)) groups.
Proof.
  intros w s rest.
  destruct (wrap_lines_groups w rest [s]) as [groups [H1 H2]];
    [discriminate | left; reflexivity |].
  exists groups; split; [exact H1 | exact H2].
Qed.

Lemma fold_min_in : forall xs x,
  In (fold_left Z.min xs x) (x :: xs) /\ Forall (fun z => fold_left Z.min xs x <= z) (x :: xs).
Proof.
  induction xs as [|y ys IH]; intros x; simpl.
  - split; [left; reflexivity | constructor; [lia | constructor]].
  - destruct (IH (Z.min x y)) as [Hin Hall].
    inversion Hall as [|? ? Hm Hys]; subst.
    split.
    + destruct Hin as [Hin | Hin]; [|right; right; exact Hin].
      destruct (Z.min_spec x y) as [[_ E] | [_ E]];
        [left | right; left]; rewrite <- Hin, E; reflexivity.
    + constructor; [lia | constructor; [lia | exact Hys]].
Qed.

Lemma fold_max_in : forall xs x,
  In (fold_left Z.max xs x) (x :: xs) /\ Forall (fun z => z <= fold_left Z.max xs x) (x :: xs).
Proof.
  induction xs as [|y ys IH]; intros x; simpl.
  - split; [left; reflexivity | constructor; [lia | constructor]].
  - destruct (IH (Z.max x y)) as [Hin Hall].
    inversion Hall as [|? ? Hm Hys]; subst.
    split.
    + destruct Hin as [Hin | Hin]; [|right; right; exact Hin].
      destruct (Z.max_spec x y) as [[_ E] | [_ E]];
        [right; left | left]; rewrite <- Hin, E; reflexivity.
    + constructor; [lia | constructor; [lia | exact Hys]].
Qed.

(** A QUAL record is yielded when all scores lie in [0, 93]; otherwise the
    error reports the minimum and maximum score. *)
Theorem qual_range_check : forall letter i n d zs,
  match qual_close letter (i, n, d) zs with
  | inr r =>
      Forall phred_range zs /\
      r = {| seq := unknown_seq letter (length zs); id := i; name := n; description := d;
             letter_annotations := [("phred_quality", to_scores zs)] |}
  | inl e =>
      exists lo hi, e = ValueError (range_msg i lo hi) /\ In lo zs /\ In hi zs /\
      (lo < 0 \/ 93 < hi) /\ Forall (fun z => lo <= z <= hi) zs
  end.
Proof.
  intros letter i n d [|x xs]; simpl; [split; [constructor | reflexivity]|].
  destruct (Z.ltb (py_min x xs) 0 || Z.ltb 93 (py_max x xs)) eqn:E.
  - exists (py_min x xs), (py_max x xs).
    destruct (fold_min_in xs x) as [Hmi Hma]; destruct (fold_max_in xs x) as [Hxi Hxa].
    unfold py_min, py_max in *.
    split; [reflexivity|]; split; [exact Hmi|]; split; [exact Hxi|]; split.
    + apply orb_true_iff in E; destruct E as [E|E]; apply Z.ltb_lt in E; lia.
    + clear -Hma Hxa; induction (x :: xs) as [|z zs IH]; [constructor|].
      inversion Hma; inversion Hxa; subst; constructor; [lia | apply IH; assumption].
  - split; [|reflexivity].
    change (Z.ltb (py_min x xs) 0 || Z.ltb 93 (py_max x xs)) with (phred_out_of_range (x :: xs)) in E.
    rewrite phred_out_of_range_spec in E.
    apply Forall_forall; intros z Hz; unfold phred_range.
    destruct (Z.ltb_spec z 0), (Z.ltb_spec 93 z); try lia;
      assert (existsb (fun v => Z.ltb v 0 || Z.ltb 93 v) (x :: xs) = true)
        by (apply existsb_exists; exists z; split; [exact Hz | apply orb_true_iff; (left; apply Z.ltb_lt; lia) || (right; apply Z.ltb_lt; lia)]);
      congruence.
Qed.

Lemma qual_strs_none : forall qs, none_in qs = true ->
  exists m, qual_strs qs = inl (TypeError m).
Proof.
  induction qs as [|[q|] qs IH]; simpl; intros H; [discriminate | | eexists; reflexivity].
  destruct (IH H) as [m Hm]; rewrite Hm; eexists; reflexivity.
Qed.

(** [QualPhredWriter] refuses titles with line breaks before writing, and
    raises its score errors after the title line is written. *)
Theorem qual_writer_errors_after_title : forall clean conv r2t wrap r title,
  qual_title_of clean r2t r = inr title ->
  (has_char (ascii_of_nat 10) title || has_char (ascii_of_nat 13) title = true ->
     QualPhredWriter_write_record clean conv r2t wrap r = (EmptyString, Some AssertionError)) /\
  (has_char (ascii_of_nat 10) title || has_char (ascii_of_nat 13) title = false ->
   (dict_get "phred_quality" (letter_annotations r) = None ->
    dict_get "solexa_quality" (letter_annotations r) = None ->
    QualPhredWriter_write_record clean conv r2t wrap r
    = (">" ++ title ++ nl, Some (PyError (ValueError (unknown_scores_msg (id r)))))) /\
   (forall qs, dict_get "phred_quality" (letter_annotations r) = Some qs -> none_in qs = true ->
    QualPhredWriter_write_record clean conv r2t wrap r
    = (">" ++ title ++ nl, Some (PyError (TypeError "A quality value of None was found"))))).
Proof.
  intros clean conv r2t wrap r title Ht.
  unfold QualPhredWriter_write_record; rewrite Ht; split; [intros Hc; rewrite Hc; reflexivity|].
  intros Hc; rewrite Hc; split.
  - intros Hp Hs; unfold _get_phred_quality; rewrite Hp, Hs; reflexivity.
  - intros qs Hp Hn; unfold _get_phred_quality; rewrite Hp.
    unfold qualities_strs; destruct (qual_strs_none qs Hn) as [m Hm]; rewrite Hm, Hn; reflexivity.
Qed.

(** ** Examples *)

Lemma phred_range_30_40 : Forall phred_range [30; 30; 30; 40].
Proof. repeat (apply Forall_cons; [unfold phred_range; lia|]); apply Forall_nil. Qed.

Lemma qual_write_read_witness :
  exists T out,
    fastq_title "r1" "r1 read one" = inr T /\
    QualPhredWriter_write_record (fun s => s) (fun q => q) None (Some 6) read_two = (out, None) /\
    QualPhredIterator "?" None (readlines out)
    = ([{| seq := "????"; id := "r1"; name := "r1"; description := T;
           letter_annotations := [("phred_quality", to_scores [30; 30; 30; 40])] |}], None).
Proof.
  assert (Hi : id read_two <> EmptyString) by discriminate.
  exact (qual_write_read (fun s => s) (fun q => q) (Some 6) "?" read_two [30; 30; 30; 40]
           eq_refl phred_range_30_40 Hi eq_refl eq_refl eq_refl eq_refl eq_refl eq_refl).
Defined.

Lemma illumina_write_read_witness :
  exists T out,
    fastq_title "r1" "r1 read one" = inr T /\
    FastqIlluminaWriter_write_record (fun s => s) (fun q => q) read_two = inr out /\
    FastqIlluminaIterator None (readlines out) = ([read_two], None).
Proof.
  assert (Hi : id read_two <> EmptyString) by discriminate.
  destruct (illumina_write_read (fun s => s) (fun q => q) read_two [30; 30; 30; 40]
              eq_refl phred_range_30_40 eq_refl eq_refl Hi eq_refl eq_refl eq_refl eq_refl eq_refl)
    as [T [out [H1 [H2 H3]]]].
  exists T, out; split; [exact H1 | split; [exact H2 |]].
  rewrite H3; vm_compute in H1; injection H1 as <-; reflexivity.
Defined.

Lemma solexa_write_read_witness :
  exists T out,
    fastq_title "r1" "r1 read one" = inr T /\
    FastqSolexaWriter_write_record (fun s => s) (fun q => q) solexa_read = inr out /\
    FastqSolexaIterator None (readlines out) = ([solexa_read], None).
Proof.
  assert (Hi : id solexa_read <> EmptyString) by discriminate.
  assert (Hz : Forall (fun z => -5 <= z <= 191) [-5; 0; 10; 40])
    by (repeat (apply Forall_cons; [lia|]); apply Forall_nil).
  destruct (solexa_write_read (fun s => s) (fun q => q) solexa_read [-5; 0; 10; 40]
              eq_refl Hz eq_refl eq_refl Hi eq_refl eq_refl eq_refl eq_refl eq_refl)
    as [T [out [H1 [H2 H3]]]].
  exists T, out; split; [exact H1 | split; [exact H2 |]].
  rewrite H3; vm_compute in H1; injection H1 as <-; reflexivity.
Defined.

Lemma fastq_tokenize_file_witness :
  FastqGeneralIterator (readlines (fastq_file [("r1 read one", "ACGT", "??I!"); ("r2", "G", "I")]))
  = ([("r1 read one", "ACGT", "??I!"); ("r2", "G", "I")], None).
Proof.
  apply fastq_tokenize_file.
  repeat constructor.
Defined.

Lemma fastq_skips_leading_lines_witness :
  FastqGeneralIterator (app ["junk" ++ nl] ["@r1" ++ nl; "A" ++ nl; "+" ++ nl; "I" ++ nl])
  = FastqGeneralIterator ["@r1" ++ nl; "A" ++ nl; "+" ++ nl; "I" ++ nl] /\
  FastqGeneralIterator ["junk" ++ nl] = ([], None).
Proof. apply fastq_skips_leading_lines; repeat constructor. Defined.

Lemma plus_line_caption_witness :
  run (InSeq "r1" "ACGT") (("+r1" ++ nl) :: []) = run (AfterPlus "r1" "ACGT") [] /\
  run (InSeq "r1" "ACGT") (("+r2" ++ nl) :: []) = ([], Some (ValueError caption_msg)).
Proof.
  split.
  - apply (proj1 (plus_line_caption "r1" "ACGT" ("+r1" ++ nl) [] eq_refl)).
    right; reflexivity.
  - apply (proj2 (plus_line_caption "r1" "ACGT" ("+r2" ++ nl) [] eq_refl));
      vm_compute; discriminate.
Defined.

Lemma readers_stop_at_first_error_witness :
  FastqIlluminaIterator None two_reads
  = ([{| seq := "A"; id := "a"; name := "a"; description := "a";
         letter_annotations := [("phred_quality", to_scores [9])] |}],
     Some (ValueError illumina_msg)).
Proof.
  apply (readers_stop_at_first_error (illumina_record None) two_reads
           [("a", "A", "I")] ("b", "A", "5") [] None); vm_compute; reflexivity.
Defined.

Lemma writers_no_scores_witness :
  FastqPhredWriter_write_record (fun s => s) (fun q => q) (fasta_rec "r1" "ACGT")
  = inl (ValueError (unknown_scores_msg "r1")) /\
  FastqSolexaWriter_write_record (fun s => s) (fun q => q) (fasta_rec "r1" "ACGT")
  = inl (ValueError (unknown_scores_msg "r1")) /\
  FastqIlluminaWriter_write_record (fun s => s) (fun q => q) (fasta_rec "r1" "ACGT")
  = inl (ValueError (unknown_scores_msg "r1")).
Proof. apply writers_no_scores; reflexivity. Defined.

Lemma writers_length_mismatch_witness :
  FastqPhredWriter_write_record (fun s => s) (fun q => q) short_read
  = inl (ValueError (record_length_msg "r1" 3 4)) /\
  FastqIlluminaWriter_write_record (fun s => s) (fun q => q) short_read
  = inl (ValueError (record_length_msg "r1" 3 4)).
Proof. apply (writers_length_mismatch _ _ short_read [30; 30; 30; 40] eq_refl phred_range_30_40); discriminate. Defined.

Lemma paired_merges_witness :
  exists out, PairedFastaQualIterator [fasta_rec "a" "AC"] [qual_rec "a" [30; 40]] = (out, None) /\
  Forall2 (fun o fq =>
    seq o = seq (fst fq) /\ id o = id (fst fq) /\ name o = name (fst fq) /\
    description o = description (fst fq) /\
    dict_get "phred_quality" (letter_annotations o)
    = dict_get "phred_quality" (letter_annotations (snd fq)) /\
    (forall k, k <> "phred_quality" ->
       dict_get k (letter_annotations o) = dict_get k (letter_annotations (fst fq))))
    out (combine [fasta_rec "a" "AC"] [qual_rec "a" [30; 40]]).
Proof.
  apply paired_merges; repeat constructor; eexists; split; reflexivity.
Defined.

Lemma paired_no_error_counts_witness :
  length (fst (PairedFastaQualIterator [fasta_rec "a" "AC"] [qual_rec "a" [30; 40]])) = 1%nat /\
  length [qual_rec "a" [30; 40]] = length [fasta_rec "a" "AC"].
Proof.
  apply (paired_no_error_counts [fasta_rec "a" "AC"] [qual_rec "a" [30; 40]]); reflexivity.
Defined.

Lemma qual_skips_leading_lines_witness :
  QualPhredIterator "?" None (app ["junk" ++ nl] [">r1" ++ nl; "30 40" ++ nl])
  = QualPhredIterator "?" None [">r1" ++ nl; "30 40" ++ nl] /\
  QualPhredIterator "?" None ["junk" ++ nl] = ([], None).
Proof. apply qual_skips_leading_lines; repeat constructor. Defined.

Lemma qual_writer_errors_after_title_witness :
  QualPhredWriter_write_record (fun s => s) (fun q => q) None None (fasta_rec "r1" "ACGT")
  = (">" ++ "r1" ++ nl, Some (PyError (ValueError (unknown_scores_msg "r1")))) /\
  QualPhredWriter_write_record (fun s => s) (fun q => q) None None
    {| seq := "AC"; id := "r1"; name := "r1"; description := "r1";
       letter_annotations := [("phred_quality", [Some 30%Q; None])] |}
  = (">" ++ "r1" ++ nl, Some (PyError (TypeError "A quality value of None was found"))).
Proof.
  split.
  - apply (proj2 (qual_writer_errors_after_title (fun s => s) (fun q => q) None None
                    (fasta_rec "r1" "ACGT") "r1" eq_refl) eq_refl); reflexivity.
  - apply (proj2 (proj2 (qual_writer_errors_after_title (fun s => s) (fun q => q) None None
             {| seq := "AC"; id := "r1"; name := "r1"; description := "r1";
                letter_annotations := [("phred_quality", [Some 30%Q; None])] |} "r1" eq_refl)
             eq_refl) [Some 30%Q; None]); reflexivity.
Defined.

